(** * Session lifecycle of the KFD thunk: [src/openclose.c]

    A shallow embedding of [hsaKmtOpenKFD], [hsaKmtCloseKFD] and their
    helpers.  The file-scope and library-wide globals of the C code are the
    fields of [State]; every call into libc, the kernel or another module of
    the library appends an [event] to the [trace] of the state, and the values
    those calls return during one [hsaKmtOpenKFD] are read from a [World]. *)

From Stdlib Require Import ZArith NArith List String Ascii Bool Lia.
Import ListNotations.
Open Scope Z_scope.

(** ** Status codes *)

(** [HSAKMT_STATUS] is declared in hsakmttypes.h, which is not part of the
    sources at hand.  The first four constructors are the ones openclose.c
    names; the others stand for the remaining failure codes that the
    collaborators (topology, fmm, doorbells, debug memory) hand back. *)
Inductive HSAKMT_STATUS : Set :=
| HSAKMT_STATUS_SUCCESS
| HSAKMT_STATUS_ERROR
| HSAKMT_STATUS_KERNEL_IO_CHANNEL_NOT_OPENED
| HSAKMT_STATUS_KERNEL_ALREADY_OPENED
| HSAKMT_STATUS_DRIVER_MISMATCH
| HSAKMT_STATUS_INVALID_PARAMETER
| HSAKMT_STATUS_NO_MEMORY
| HSAKMT_STATUS_NOT_SUPPORTED
| HSAKMT_STATUS_UNAVAILABLE.

Definition HSAKMT_STATUS_eq_dec (a b : HSAKMT_STATUS) : {a = b} + {a <> b}.
Proof. decide equality. Defined.

Definition status_eqb (a b : HSAKMT_STATUS) : bool :=
  if HSAKMT_STATUS_eq_dec a b then true else false.

(** ** Machine integers *)

Definition UINT_MOD : Z := 2 ^ 32.
Definition ULONG_MAX : Z := 2 ^ 64 - 1.
Definition LONG_MAX : Z := 2 ^ 63 - 1.
Definition LONG_MIN : Z := - 2 ^ 63.

(** Conversion to [unsigned int] and to [int] (two's complement). *)
Definition to_uint32 (z : Z) : Z := z mod UINT_MOD.
Definition to_int32 (z : Z) : Z :=
  let u := z mod UINT_MOD in if u <? 2 ^ 31 then u else u - UINT_MOD.

(** ** The libc scanning functions used on environment strings *)

Module Scan.

Definition isspace (c : ascii) : bool :=
  let n := N_of_ascii c in
  ((n =? 32) || ((9 <=? n) && (n <=? 13)))%N.

Definition isdigit (c : ascii) : bool :=
  let n := N_of_ascii c in ((48 <=? n) && (n <=? 57))%N.

Definition digit_value (c : ascii) : Z := Z.of_N (N_of_ascii c) - 48.

Fixpoint skip_space (s : string) : string :=
  match s with
  | String c s' => if isspace c then skip_space s' else s
  | EmptyString => s
  end.

(** The run of decimal digits at the head of [s], accumulated in [acc]. *)
Fixpoint scan_digits (s : string) (acc : Z) : Z * string :=
  match s with
  | String c s' =>
      if isdigit c then scan_digits s' (acc * 10 + digit_value c)
      else (acc, s)
  | EmptyString => (acc, s)
  end.

Inductive scanned (A : Type) : Type :=
| Conv (a : A) (rest : string)
| MatchFailure
| InputFailure.
Arguments Conv {A} a rest.
Arguments MatchFailure {A}.
Arguments InputFailure {A}.

Definition scan_sign (s : string) : bool * string :=
  match s with
  | String "-"%char s' => (true, s')
  | String "+"%char s' => (false, s')
  | _ => (false, s)
  end.

(** The subject sequence of [strtol]/[strtoul] in base 10: white space, an
    optional sign, one digit or more.  The result is the sign and the
    magnitude, not yet fitted to a C type. *)
Definition scan_integer (s : string) : scanned (bool * Z) :=
  match skip_space s with
  | EmptyString => InputFailure
  | s1 =>
      let (neg, s2) := scan_sign s1 in
      match s2 with
      | String c _ =>
          if isdigit c then
            let (v, rest) := scan_digits s2 0 in Conv (neg, v) rest
          else MatchFailure
      | EmptyString => MatchFailure
      end
  end.

(** What [strtoul] returns for a sign and a magnitude: the magnitude
    clamped to [ULONG_MAX], negated in [unsigned long] when the sign is
    minus. *)
Definition strtoul_value (sv : bool * Z) : Z :=
  let (neg, v) := sv in
  if ULONG_MAX <? v then ULONG_MAX
  else if neg then (- v) mod (ULONG_MAX + 1) else v.

(** What [strtol] returns: clamped to [LONG_MIN .. LONG_MAX]. *)
Definition strtol_value (sv : bool * Z) : Z :=
  let (neg, v) := sv in
  let x := if neg then - v else v in
  Z.max LONG_MIN (Z.min LONG_MAX x).

(** [atoi(s)] is [(int) strtol(s, NULL, 10)]; without digits it is 0.
    (Out of the range of [long] ISO C leaves the value open; the clamped
    and truncated value written here is the one glibc produces.) *)
Definition atoi (s : string) : Z :=
  match scan_integer s with
  | Conv sv _ => to_int32 (strtol_value sv)
  | _ => 0
  end.

(** At most [width] characters up to the next white space: [%<width>s]. *)
Fixpoint scan_word (width : nat) (s : string) : string * string :=
  match width, s with
  | S w, String c s' =>
      if isspace c then (EmptyString, s)
      else let (word, rest) := scan_word w s' in (String c word, rest)
  | _, _ => (EmptyString, s)
  end.

(** The directives that occur in the format of openclose.c. *)
Inductive directive : Set :=
| DUInt                 (* %u *)
| DStr (width : nat)    (* %<width>s *)
| DLit (c : ascii)      (* an ordinary character *)
| DSpace.               (* white space *)

Inductive arg : Set :=
| ArgU (v : Z)
| ArgS (s : string).

Definition EOF : Z := -1.

(** Return value when a directive fails after [done] was assigned. *)
Definition stop (input_failure : bool) (done : list arg) : Z * list arg :=
  match done with
  | [] => if input_failure then (EOF, done) else (0, done)
  | _ => (Z.of_nat (List.length done), done)
  end.

(** [sscanf]: the directives are run in order; [done] are the values
    assigned so far, in the order of the pointer arguments.  A [%u] stores
    [strtoul]'s value converted to [unsigned int]; for a magnitude that
    [unsigned int] cannot hold ISO C leaves the stored value open, and the
    truncation written here is what glibc does on LP64. *)
Fixpoint sscanf_from (fmt : list directive) (input : string)
         (done : list arg) : Z * list arg :=
  match fmt with
  | [] => (Z.of_nat (List.length done), done)
  | DSpace :: fmt' => sscanf_from fmt' (skip_space input) done
  | DLit c :: fmt' =>
      match input with
      | String c' rest =>
          if Ascii.eqb c c' then sscanf_from fmt' rest done
          else stop false done
      | EmptyString => stop true done
      end
  | DUInt :: fmt' =>
      match scan_integer input with
      | Conv sv rest =>
          sscanf_from fmt' rest (done ++ [ArgU (to_uint32 (strtoul_value sv))])
      | MatchFailure => stop false done
      | InputFailure => stop true done
      end
  | DStr w :: fmt' =>
      match skip_space input with
      | EmptyString => stop true done
      | s1 =>
          let (word, rest) := scan_word w s1 in
          sscanf_from fmt' rest (done ++ [ArgS word])
      end
  end.

Definition sscanf (input : string) (fmt : list directive) : Z * list arg :=
  sscanf_from fmt input [].

(** The value stored through the [i]-th pointer argument, when it is a
    number.  An argument that was not assigned is an uninitialised local in
    the caller, which the caller does not read; 0 stands for it. *)
Definition arg_u (args : list arg) (i : nat) : Z :=
  match nth_error args i with
  | Some (ArgU v) => v
  | _ => 0
  end.

Definition arg_s (args : list arg) (i : nat) : option string :=
  match nth_error args i with
  | Some (ArgS s) => Some s
  | _ => None
  end.

End Scan.

(** ** Constants of libhsakmt.h *)

(** The header that defines these macros and the [asic_family_type]
    enumeration is not among the sources; they are taken as parameters. *)
Record Header : Set := {
  CHIP_LAST : Z;
  HSAKMT_DEBUG_LEVEL_DEFAULT : Z;
  HSAKMT_DEBUG_LEVEL_ERR : Z;
  HSAKMT_DEBUG_LEVEL_DEBUG : Z
}.

(** ** Calls that leave the file *)

Inductive event : Set :=
| EvMutexLock
| EvMutexUnlock
| EvMutexInit
| EvGetpid
| EvGetenv (name : string)
| EvPrErr
| EvPrWarn
| EvOpen (path : string) (ret : Z)
| EvClose (fd : Z)
| EvSysconfPagesize
| EvTopologySysfsGetSystemProps
| EvFmmInitProcessApertures (num_nodes : Z)
| EvInitProcessDoorbells (num_nodes : Z)
| EvInitDeviceDebuggingMemory (num_nodes : Z)
| EvInitCounterProps (num_nodes : Z)
| EvPthreadAtfork
| EvFmmDestroyProcessApertures
| EvDestroyProcessDoorbells
| EvDestroyDeviceDebuggingMemory
| EvDestroyCounterProps
| EvClearProcessDoorbells
| EvClearEventsPage
| EvFmmClearAllMem.

(** What the surroundings answer during one call of [hsaKmtOpenKFD]. *)
Record World : Type := {
  w_getpid : Z;
  w_getenv : string -> option string;
  w_open : Z;                               (* open(2): -1 or a descriptor *)
  w_sysconf_pagesize : Z;
  w_topology : HSAKMT_STATUS * Z;           (* status, sys_props.NumNodes *)
  w_fmm_init_process_apertures : Z -> HSAKMT_STATUS;
  w_init_process_doorbells : Z -> HSAKMT_STATUS;
  w_init_device_debugging_memory : Z -> HSAKMT_STATUS;
  w_init_counter_props : Z -> HSAKMT_STATUS
}.

(** ** Globals *)

(** The fields of [force_asic_entry] that openclose.c assigns. *)
Record hsa_gfxip_table : Set := {
  major : Z;
  minor : Z;
  stepping : Z;
  is_dgpu : Z;
  asic_family : Z
}.

(** [parent_pid], [hsakmt_forked], [hsakmt_debug_level], [zfb_support] and
    the function-local static [atfork_installed] are defined in openclose.c;
    the other globals are defined elsewhere in the library and only used
    here.

    Modelled from the spec: the declaration of [kfd_open_count] is missing
    from the sources; the spec gives it as a non-negative integer, and the
    code only compares it with 0, increments and decrements it, so it is a
    natural number here. *)
Record State : Type := {
  parent_pid : Z;
  hsakmt_forked : bool;
  atfork_installed : bool;
  kfd_fd : Z;
  kfd_open_count : N;
  hsakmt_debug_level : Z;
  zfb_support : Z;
  force_asic_name : string;
  force_asic_entry : hsa_gfxip_table;
  force_asic : Z;
  PAGE_SIZE : Z;
  PAGE_SHIFT : Z;
  trace : list event
}.

Definition set_parent_pid (v : Z) (s : State) : State :=
  {| parent_pid := v; hsakmt_forked := hsakmt_forked s;
     atfork_installed := atfork_installed s; kfd_fd := kfd_fd s;
     kfd_open_count := kfd_open_count s;
     hsakmt_debug_level := hsakmt_debug_level s;
     zfb_support := zfb_support s; force_asic_name := force_asic_name s;
     force_asic_entry := force_asic_entry s; force_asic := force_asic s;
     PAGE_SIZE := PAGE_SIZE s; PAGE_SHIFT := PAGE_SHIFT s; trace := trace s |}.

Definition set_hsakmt_forked (v : bool) (s : State) : State :=
  {| parent_pid := parent_pid s; hsakmt_forked := v;
     atfork_installed := atfork_installed s; kfd_fd := kfd_fd s;
     kfd_open_count := kfd_open_count s;
     hsakmt_debug_level := hsakmt_debug_level s;
     zfb_support := zfb_support s; force_asic_name := force_asic_name s;
     force_asic_entry := force_asic_entry s; force_asic := force_asic s;
     PAGE_SIZE := PAGE_SIZE s; PAGE_SHIFT := PAGE_SHIFT s; trace := trace s |}.

Definition set_atfork_installed (v : bool) (s : State) : State :=
  {| parent_pid := parent_pid s; hsakmt_forked := hsakmt_forked s;
     atfork_installed := v; kfd_fd := kfd_fd s;
     kfd_open_count := kfd_open_count s;
     hsakmt_debug_level := hsakmt_debug_level s;
     zfb_support := zfb_support s; force_asic_name := force_asic_name s;
     force_asic_entry := force_asic_entry s; force_asic := force_asic s;
     PAGE_SIZE := PAGE_SIZE s; PAGE_SHIFT := PAGE_SHIFT s; trace := trace s |}.

Definition set_kfd_fd (v : Z) (s : State) : State :=
  {| parent_pid := parent_pid s; hsakmt_forked := hsakmt_forked s;
     atfork_installed := atfork_installed s; kfd_fd := v;
     kfd_open_count := kfd_open_count s;
     hsakmt_debug_level := hsakmt_debug_level s;
     zfb_support := zfb_support s; force_asic_name := force_asic_name s;
     force_asic_entry := force_asic_entry s; force_asic := force_asic s;
     PAGE_SIZE := PAGE_SIZE s; PAGE_SHIFT := PAGE_SHIFT s; trace := trace s |}.

Definition set_kfd_open_count (v : N) (s : State) : State :=
  {| parent_pid := parent_pid s; hsakmt_forked := hsakmt_forked s;
     atfork_installed := atfork_installed s; kfd_fd := kfd_fd s;
     kfd_open_count := v;
     hsakmt_debug_level := hsakmt_debug_level s;
     zfb_support := zfb_support s; force_asic_name := force_asic_name s;
     force_asic_entry := force_asic_entry s; force_asic := force_asic s;
     PAGE_SIZE := PAGE_SIZE s; PAGE_SHIFT := PAGE_SHIFT s; trace := trace s |}.

Definition set_hsakmt_debug_level (v : Z) (s : State) : State :=
  {| parent_pid := parent_pid s; hsakmt_forked := hsakmt_forked s;
     atfork_installed := atfork_installed s; kfd_fd := kfd_fd s;
     kfd_open_count := kfd_open_count s;
     hsakmt_debug_level := v;
     zfb_support := zfb_support s; force_asic_name := force_asic_name s;
     force_asic_entry := force_asic_entry s; force_asic := force_asic s;
     PAGE_SIZE := PAGE_SIZE s; PAGE_SHIFT := PAGE_SHIFT s; trace := trace s |}.

Definition set_zfb_support (v : Z) (s : State) : State :=
  {| parent_pid := parent_pid s; hsakmt_forked := hsakmt_forked s;
     atfork_installed := atfork_installed s; kfd_fd := kfd_fd s;
     kfd_open_count := kfd_open_count s;
     hsakmt_debug_level := hsakmt_debug_level s;
     zfb_support := v; force_asic_name := force_asic_name s;
     force_asic_entry := force_asic_entry s; force_asic := force_asic s;
     PAGE_SIZE := PAGE_SIZE s; PAGE_SHIFT := PAGE_SHIFT s; trace := trace s |}.

Definition set_force_asic_name (v : string) (s : State) : State :=
  {| parent_pid := parent_pid s; hsakmt_forked := hsakmt_forked s;
     atfork_installed := atfork_installed s; kfd_fd := kfd_fd s;
     kfd_open_count := kfd_open_count s;
     hsakmt_debug_level := hsakmt_debug_level s;
     zfb_support := zfb_support s; force_asic_name := v;
     force_asic_entry := force_asic_entry s; force_asic := force_asic s;
     PAGE_SIZE := PAGE_SIZE s; PAGE_SHIFT := PAGE_SHIFT s; trace := trace s |}.

Definition set_force_asic_entry (v : hsa_gfxip_table) (s : State) : State :=
  {| parent_pid := parent_pid s; hsakmt_forked := hsakmt_forked s;
     atfork_installed := atfork_installed s; kfd_fd := kfd_fd s;
     kfd_open_count := kfd_open_count s;
     hsakmt_debug_level := hsakmt_debug_level s;
     zfb_support := zfb_support s; force_asic_name := force_asic_name s;
     force_asic_entry := v; force_asic := force_asic s;
     PAGE_SIZE := PAGE_SIZE s; PAGE_SHIFT := PAGE_SHIFT s; trace := trace s |}.

Definition set_force_asic (v : Z) (s : State) : State :=
  {| parent_pid := parent_pid s; hsakmt_forked := hsakmt_forked s;
     atfork_installed := atfork_installed s; kfd_fd := kfd_fd s;
     kfd_open_count := kfd_open_count s;
     hsakmt_debug_level := hsakmt_debug_level s;
     zfb_support := zfb_support s; force_asic_name := force_asic_name s;
     force_asic_entry := force_asic_entry s; force_asic := v;
     PAGE_SIZE := PAGE_SIZE s; PAGE_SHIFT := PAGE_SHIFT s; trace := trace s |}.

Definition set_page (size shift : Z) (s : State) : State :=
  {| parent_pid := parent_pid s; hsakmt_forked := hsakmt_forked s;
     atfork_installed := atfork_installed s; kfd_fd := kfd_fd s;
     kfd_open_count := kfd_open_count s;
     hsakmt_debug_level := hsakmt_debug_level s;
     zfb_support := zfb_support s; force_asic_name := force_asic_name s;
     force_asic_entry := force_asic_entry s; force_asic := force_asic s;
     PAGE_SIZE := size; PAGE_SHIFT := shift; trace := trace s |}.

(** [emit e s]: the call [e] happens in state [s]. *)
Definition emit (e : event) (s : State) : State :=
  {| parent_pid := parent_pid s; hsakmt_forked := hsakmt_forked s;
     atfork_installed := atfork_installed s; kfd_fd := kfd_fd s;
     kfd_open_count := kfd_open_count s;
     hsakmt_debug_level := hsakmt_debug_level s;
     zfb_support := zfb_support s; force_asic_name := force_asic_name s;
     force_asic_entry := force_asic_entry s; force_asic := force_asic s;
     PAGE_SIZE := PAGE_SIZE s; PAGE_SHIFT := PAGE_SHIFT s;
     trace := trace s ++ [e] |}.

(** The state in which the library is loaded: [parent_pid] is initialised to
    -1 in openclose.c, every other global is zero-initialised. *)
Definition initial_state : State :=
  {| parent_pid := -1; hsakmt_forked := false; atfork_installed := false;
     kfd_fd := 0; kfd_open_count := 0%N; hsakmt_debug_level := 0;
     zfb_support := 0; force_asic_name := EmptyString;
     force_asic_entry :=
       {| major := 0; minor := 0; stepping := 0; is_dgpu := 0;
          asic_family := 0 |};
     force_asic := 0; PAGE_SIZE := 0; PAGE_SHIFT := 0; trace := [] |}.

(** ** openclose.c *)

Definition kfd_device_name : string := "/dev/kfd".

(** [is_forked_child]: has the process forked since the last call? *)
Definition is_forked_child (w : World) (s : State) : bool * State :=
  if hsakmt_forked s then (true, s)
  else
    let cur_pid := w_getpid w in
    let s := emit EvGetpid s in
    if parent_pid s =? -1 then (false, set_parent_pid cur_pid s)
    else if negb (parent_pid s =? cur_pid) then
      (true, set_hsakmt_forked true s)
    else (false, s).

(** Callbacks from pthread_atfork. *)
Definition prepare_fork_handler (s : State) : State := emit EvMutexLock s.
Definition parent_fork_handler (s : State) : State := emit EvMutexUnlock s.
Definition child_fork_handler (s : State) : State :=
  set_hsakmt_forked true (emit EvMutexInit s).

(** [if (kfd_fd) { close(kfd_fd); kfd_fd = 0; }], as it stands in
    [clear_after_fork] and in [hsaKmtCloseKFD]. *)
Definition close_kfd_fd (s : State) : State :=
  if negb (kfd_fd s =? 0) then set_kfd_fd 0 (emit (EvClose (kfd_fd s)) s)
  else s.

Definition clear_after_fork (s : State) : State :=
  let s := emit EvClearProcessDoorbells s in
  let s := emit EvClearEventsPage s in
  let s := emit EvFmmClearAllMem s in
  let s := emit EvDestroyDeviceDebuggingMemory s in
  let s := close_kfd_fd s in
  let s := set_kfd_open_count 0%N s in
  let s := set_parent_pid (-1) s in
  set_hsakmt_forked false s.

(** [ffs] of an [int]: one plus the index of the lowest set bit, 0 if none. *)
Fixpoint ffs_from (fuel : nat) (i : Z) (x : Z) : Z :=
  match fuel with
  | O => 0
  | S fuel' => if Z.testbit x i then i + 1 else ffs_from fuel' (i + 1) x
  end.
Definition ffs (x : Z) : Z := ffs_from 32 0 x.

Definition init_page_size (w : World) (s : State) : State :=
  let s := emit EvSysconfPagesize s in
  let page_size := to_int32 (w_sysconf_pagesize w) in
  set_page page_size (ffs page_size - 1) s.

Definition getenv (w : World) (name : string) (s : State)
  : option string * State :=
  (w_getenv w name, emit (EvGetenv name) s).

(** ["%u.%u.%u %u %63s %u"] *)
Definition force_asic_format : list Scan.directive :=
  [Scan.DUInt; Scan.DLit "."; Scan.DUInt; Scan.DLit "."; Scan.DUInt;
   Scan.DSpace; Scan.DUInt; Scan.DSpace; Scan.DStr 63; Scan.DSpace;
   Scan.DUInt].

(** [init_vars_from_env].  [sscanf] writes the name straight into the global
    [force_asic_name]; the numbers go to locals, which are read only after
    the call returned 6 (the [||] chain stops at its first true operand).
    [asic_family >= CHIP_LAST] compares an [unsigned] with an enumeration
    constant, taken here to be non-negative. *)
Definition init_vars_from_env (h : Header) (w : World) (s : State)
  : HSAKMT_STATUS * State :=
  let s := set_hsakmt_debug_level (HSAKMT_DEBUG_LEVEL_DEFAULT h) s in
  let (envvar, s) := getenv w "HSAKMT_DEBUG_LEVEL" s in
  let s :=
    match envvar with
    | Some v =>
        let debug_level := Scan.atoi v in
        if (HSAKMT_DEBUG_LEVEL_ERR h <=? debug_level)
           && (debug_level <=? HSAKMT_DEBUG_LEVEL_DEBUG h)
        then set_hsakmt_debug_level debug_level s
        else s
    | None => s
    end in
  let (envvar, s) := getenv w "HSA_ZFB" s in
  let s :=
    match envvar with
    | Some v => set_zfb_support (Scan.atoi v) s
    | None => s
    end in
  let (envvar, s) := getenv w "HSA_FORCE_ASIC_TYPE" s in
  match envvar with
  | Some v =>
      let (n, args) := Scan.sscanf v force_asic_format in
      let s :=
        match Scan.arg_s args 4 with
        | Some name => set_force_asic_name name s
        | None => s
        end in
      let major := Scan.arg_u args 0 in
      let minor := Scan.arg_u args 1 in
      let step := Scan.arg_u args 2 in
      let dgpu := Scan.arg_u args 3 in
      let asic_family := Scan.arg_u args 5 in
      if negb (n =? 6)
         || ((63 <? major) || (255 <? minor) || (255 <? step))
         || (1 <? dgpu) || (CHIP_LAST h <=? asic_family)
      then (HSAKMT_STATUS_ERROR, emit EvPrErr s)
      else
        let s :=
          set_force_asic_entry
            {| major := major; minor := minor; stepping := step;
               is_dgpu := dgpu; asic_family := asic_family |} s in
        (HSAKMT_STATUS_SUCCESS, set_force_asic 1 s)
  | None => (HSAKMT_STATUS_SUCCESS, s)
  end.

(** The labels at the end of [hsaKmtOpenKFD]; each falls through to the
    next. *)
Definition open_failed (result : HSAKMT_STATUS) (s : State)
  : HSAKMT_STATUS * State :=
  (result, emit EvMutexUnlock s).

Definition topology_sysfs_failed (fd : Z) (result : HSAKMT_STATUS) (s : State)
  : HSAKMT_STATUS * State :=
  open_failed result (emit (EvClose fd) s).

Definition init_process_aperture_failed (fd : Z) (result : HSAKMT_STATUS)
           (s : State) : HSAKMT_STATUS * State :=
  topology_sysfs_failed fd result s.

Definition init_doorbell_failed (fd : Z) (result : HSAKMT_STATUS) (s : State)
  : HSAKMT_STATUS * State :=
  init_process_aperture_failed fd result (emit EvFmmDestroyProcessApertures s).

(** The branch [kfd_open_count == 0] of [hsaKmtOpenKFD], up to the return. *)
Definition open_first (h : Header) (w : World) (s : State)
  : HSAKMT_STATUS * State :=
  let (result, s) := init_vars_from_env h w s in
  if negb (status_eqb result HSAKMT_STATUS_SUCCESS) then open_failed result s
  else
    let fd := w_open w in
    let s := emit (EvOpen kfd_device_name fd) s in
    if fd =? -1 then
      open_failed HSAKMT_STATUS_KERNEL_IO_CHANNEL_NOT_OPENED s
    else
      let s := set_kfd_fd fd s in
      let s := set_kfd_open_count 1%N s in
      let s := init_page_size w s in
      let (result, NumNodes) := w_topology w in
      let s := emit EvTopologySysfsGetSystemProps s in
      if negb (status_eqb result HSAKMT_STATUS_SUCCESS) then
        topology_sysfs_failed fd result s
      else
        let result := w_fmm_init_process_apertures w NumNodes in
        let s := emit (EvFmmInitProcessApertures NumNodes) s in
        if negb (status_eqb result HSAKMT_STATUS_SUCCESS) then
          init_process_aperture_failed fd result s
        else
          let result := w_init_process_doorbells w NumNodes in
          let s := emit (EvInitProcessDoorbells NumNodes) s in
          if negb (status_eqb result HSAKMT_STATUS_SUCCESS) then
            init_doorbell_failed fd result s
          else
            let debug_result := w_init_device_debugging_memory w NumNodes in
            let s := emit (EvInitDeviceDebuggingMemory NumNodes) s in
            let s :=
              if negb (status_eqb debug_result HSAKMT_STATUS_SUCCESS)
              then emit EvPrWarn s else s in
            let _ignored := w_init_counter_props w NumNodes in
            let s := emit (EvInitCounterProps NumNodes) s in
            let s :=
              if negb (atfork_installed s) then
                set_atfork_installed true (emit EvPthreadAtfork s)
              else s in
            (result, emit EvMutexUnlock s).

Definition hsaKmtOpenKFD (h : Header) (w : World) (s : State)
  : HSAKMT_STATUS * State :=
  let s := emit EvMutexLock s in
  let (forked, s) := is_forked_child w s in
  let s := if forked then clear_after_fork s else s in
  if (kfd_open_count s =? 0)%N then open_first h w s
  else
    let s := set_kfd_open_count (kfd_open_count s + 1)%N s in
    (HSAKMT_STATUS_KERNEL_ALREADY_OPENED, emit EvMutexUnlock s).

Definition hsaKmtCloseKFD (s : State) : HSAKMT_STATUS * State :=
  let s := emit EvMutexLock s in
  let (result, s) :=
    if (0 <? kfd_open_count s)%N then
      let s := set_kfd_open_count (kfd_open_count s - 1)%N s in
      let s :=
        if (kfd_open_count s =? 0)%N then
          let s := emit EvDestroyCounterProps s in
          let s := emit EvDestroyDeviceDebuggingMemory s in
          let s := emit EvDestroyProcessDoorbells s in
          let s := emit EvFmmDestroyProcessApertures s in
          close_kfd_fd s
        else s in
      (HSAKMT_STATUS_SUCCESS, s)
    else (HSAKMT_STATUS_KERNEL_IO_CHANNEL_NOT_OPENED, s) in
  (result, emit EvMutexUnlock s).

(** ** Sequences of calls *)

(** [hsaKmtOpenKFD] once for each world of [ws], in order. *)
Fixpoint open_all (h : Header) (ws : list World) (s : State)
  : list HSAKMT_STATUS * State :=
  match ws with
  | [] => ([], s)
  | w :: ws' =>
      let (r, s1) := hsaKmtOpenKFD h w s in
      let (rs, s2) := open_all h ws' s1 in
      (r :: rs, s2)
  end.

(** [hsaKmtCloseKFD], [n] times. *)
Fixpoint close_times (n : nat) (s : State) : list HSAKMT_STATUS * State :=
  match n with
  | O => ([], s)
  | S n' =>
      let (r, s1) := hsaKmtCloseKFD s in
      let (rs, s2) := close_times n' s1 in
      (r :: rs, s2)
  end.

(** [is_forked_child] once for each world of [ws], in order. *)
Fixpoint is_forked_child_all (ws : list World) (s : State)
  : list bool * State :=
  match ws with
  | [] => ([], s)
  | w :: ws' =>
      let (b, s1) := is_forked_child w s in
      let (bs, s2) := is_forked_child_all ws' s1 in
      (b :: bs, s2)
  end.

(** The two statuses with which [hsaKmtOpenKFD] reports that the caller now
    holds a reference. *)
Definition open_succeeded (r : HSAKMT_STATUS) : bool :=
  status_eqb r HSAKMT_STATUS_SUCCESS
  || status_eqb r HSAKMT_STATUS_KERNEL_ALREADY_OPENED.

(** ** Reading a trace *)

(** The events of [s'] that were not yet in [s]. *)
Definition events_since (s s' : State) : list event :=
  skipn (List.length (trace s)) (trace s').

Definition is_device_open (e : event) : bool :=
  match e with
  | EvOpen _ fd => negb (fd =? -1)
  | _ => false
  end.

Definition is_device_close (e : event) : bool :=
  match e with
  | EvClose _ => true
  | _ => false
  end.

(** How often the device was opened, and how often a descriptor was closed. *)
Definition device_opens (t : list event) : nat :=
  List.length (filter is_device_open t).
Definition device_closes (t : list event) : nat :=
  List.length (filter is_device_close t).

(** The descriptors that are open at the end of a trace: [open] adds the
    descriptor it returns, [close] removes its argument. *)
Fixpoint open_descriptors_from (t : list event) (fds : list Z) : list Z :=
  match t with
  | [] => fds
  | EvOpen _ fd :: t' =>
      open_descriptors_from t' (if fd =? -1 then fds else fd :: fds)
  | EvClose fd :: t' => open_descriptors_from t' (remove Z.eq_dec fd fds)
  | _ :: t' => open_descriptors_from t' fds
  end.

Definition open_descriptors (t : list event) : list Z :=
  open_descriptors_from t [].

(** The handle of the session is valid when [kfd_fd] names a descriptor that
    is open. *)
Definition handle_valid (s : State) : bool :=
  existsb (Z.eqb (kfd_fd s)) (open_descriptors (trace s)).

(** The subsystems that [hsaKmtOpenKFD] initialises and [hsaKmtCloseKFD]
    destroys. *)
Inductive subsystem : Set :=
| Apertures
| Doorbells
| DebugMemory
| Counters.

Definition init_of (e : event) : option subsystem :=
  match e with
  | EvFmmInitProcessApertures _ => Some Apertures
  | EvInitProcessDoorbells _ => Some Doorbells
  | EvInitDeviceDebuggingMemory _ => Some DebugMemory
  | EvInitCounterProps _ => Some Counters
  | _ => None
  end.

Definition teardown_of (e : event) : option subsystem :=
  match e with
  | EvFmmDestroyProcessApertures => Some Apertures
  | EvDestroyProcessDoorbells => Some Doorbells
  | EvDestroyDeviceDebuggingMemory => Some DebugMemory
  | EvDestroyCounterProps => Some Counters
  | _ => None
  end.

Fixpoint pick {A B : Type} (f : A -> option B) (l : list A) : list B :=
  match l with
  | [] => []
  | a :: l' =>
      match f a with
      | Some b => b :: pick f l'
      | None => pick f l'
      end
  end.

(** The subsystems initialised, resp. torn down, in the order of the calls. *)
Definition subsystem_inits (t : list event) : list subsystem := pick init_of t.
Definition subsystem_teardowns (t : list event) : list subsystem :=
  pick teardown_of t.

(** ** Worlds and headers used in the examples *)

Definition no_env : string -> option string := fun _ => None.

Definition env_force_asic (v : string) : string -> option string :=
  fun name => if String.eqb name "HSA_FORCE_ASIC_TYPE" then Some v else None.

(** A world in which the device opens as [fd] and the stages answer
    [topo], [apertures], [doorbells], [debug] and [counters]. *)
Definition world_of (pid fd : Z) (env : string -> option string)
           (topo : HSAKMT_STATUS * Z)
           (apertures doorbells debug counters : HSAKMT_STATUS) : World :=
  {| w_getpid := pid; w_getenv := env; w_open := fd;
     w_sysconf_pagesize := 4096; w_topology := topo;
     w_fmm_init_process_apertures := fun _ => apertures;
     w_init_process_doorbells := fun _ => doorbells;
     w_init_device_debugging_memory := fun _ => debug;
     w_init_counter_props := fun _ => counters |}.

Definition world_ok (pid fd : Z) : World :=
  world_of pid fd no_env (HSAKMT_STATUS_SUCCESS, 2)
           HSAKMT_STATUS_SUCCESS HSAKMT_STATUS_SUCCESS
           HSAKMT_STATUS_SUCCESS HSAKMT_STATUS_SUCCESS.

Definition example_header : Header :=
  {| CHIP_LAST := 20; HSAKMT_DEBUG_LEVEL_DEFAULT := -1;
     HSAKMT_DEBUG_LEVEL_ERR := 3; HSAKMT_DEBUG_LEVEL_DEBUG := 7 |}.

(** ** Vocabulary of the statements *)

(** The status with which [init_vars_from_env] returns in world [w]; it does
    not depend on the state ([init_vars_from_env_status]). *)
Definition config_status (h : Header) (w : World) : HSAKMT_STATUS :=
  fst (init_vars_from_env h w initial_state).

(** The calls of [init_vars_from_env] when it returns [r]. *)
Definition config_events (r : HSAKMT_STATUS) : list event :=
  [EvGetenv "HSAKMT_DEBUG_LEVEL"; EvGetenv "HSA_ZFB";
   EvGetenv "HSA_FORCE_ASIC_TYPE"]
  ++ (if status_eqb r HSAKMT_STATUS_SUCCESS then [] else [EvPrErr]).

(** The calls of a first open after the configuration, when no stage makes
    it fail: [n] is the node count, [installed] the latch of the fork
    handlers before the call. *)
Definition acquire_events (w : World) (n : Z) (installed : bool)
  : list event :=
  [EvOpen kfd_device_name (w_open w); EvSysconfPagesize;
   EvTopologySysfsGetSystemProps; EvFmmInitProcessApertures n;
   EvInitProcessDoorbells n; EvInitDeviceDebuggingMemory n]
  ++ (if status_eqb (w_init_device_debugging_memory w n) HSAKMT_STATUS_SUCCESS
      then [] else [EvPrWarn])
  ++ [EvInitCounterProps n]
  ++ (if installed then [] else [EvPthreadAtfork])
  ++ [EvMutexUnlock].

(** The state after the lock was taken and [is_forked_child] saw no fork. *)
Definition entered (w : World) (s : State) : State :=
  set_parent_pid (w_getpid w) (emit EvGetpid (emit EvMutexLock s)).

(** [is_forked_child] sees a fork: the flag is set, or an identity was
    recorded and differs from the live one. *)
Definition fork_detected (w : World) (s : State) : Prop :=
  hsakmt_forked s = true \/
  (parent_pid s <> -1 /\ parent_pid s <> w_getpid w).

(** The state in which [hsaKmtOpenKFD] reaches [if (kfd_open_count == 0)]
    when the fork was seen in [s]. *)
Definition reset_state (s : State) : State :=
  clear_after_fork
    (if hsakmt_forked s then emit EvMutexLock s
     else set_hsakmt_forked true (emit EvGetpid (emit EvMutexLock s))).

(** The configuration that [init_vars_from_env] writes. *)
Definition same_config (s s' : State) : Prop :=
  hsakmt_debug_level s' = hsakmt_debug_level s /\
  zfb_support s' = zfb_support s /\
  force_asic_name s' = force_asic_name s /\
  force_asic_entry s' = force_asic_entry s /\
  force_asic s' = force_asic s.

(** The invariant of the session: no reference is counted exactly when the
    handle is not valid. *)
Definition session_invariant (s : State) : Prop :=
  kfd_open_count s = 0%N <-> handle_valid s = false.

(** The operations on a session: the two entry points, and the callback that
    pthread_atfork runs in the child. *)
Inductive call : Type :=
| CallOpen (w : World)
| CallClose
| CallChildFork.

Definition step (h : Header) (s : State) (c : call) : State :=
  match c with
  | CallOpen w => snd (hsaKmtOpenKFD h w s)
  | CallClose => snd (hsaKmtCloseKFD s)
  | CallChildFork => child_fork_handler s
  end.

Definition run (h : Header) (cs : list call) (s : State) : State :=
  fold_left (step h) cs s.

Definition world_doorbells_fail (pid fd : Z) : World :=
  world_of pid fd no_env (HSAKMT_STATUS_SUCCESS, 2)
           HSAKMT_STATUS_SUCCESS HSAKMT_STATUS_NO_MEMORY
           HSAKMT_STATUS_SUCCESS HSAKMT_STATUS_SUCCESS.

Definition world_topology_fails (pid fd : Z) : World :=
  world_of pid fd no_env (HSAKMT_STATUS_ERROR, 0)
           HSAKMT_STATUS_SUCCESS HSAKMT_STATUS_SUCCESS
           HSAKMT_STATUS_SUCCESS HSAKMT_STATUS_SUCCESS.

Definition world_debug_counters_fail (pid fd : Z) : World :=
  world_of pid fd no_env (HSAKMT_STATUS_SUCCESS, 2)
           HSAKMT_STATUS_SUCCESS HSAKMT_STATUS_SUCCESS
           HSAKMT_STATUS_NO_MEMORY HSAKMT_STATUS_NO_MEMORY.

(** The calls of a first open, after the configuration, when the stage
    named fails: the stages run so far, then the labels. *)
Definition topology_failure_events (w : World) : list event :=
  [EvOpen kfd_device_name (w_open w); EvSysconfPagesize;
   EvTopologySysfsGetSystemProps; EvClose (w_open w); EvMutexUnlock].

Definition aperture_failure_events (w : World) (n : Z) : list event :=
  [EvOpen kfd_device_name (w_open w); EvSysconfPagesize;
   EvTopologySysfsGetSystemProps; EvFmmInitProcessApertures n;
   EvClose (w_open w); EvMutexUnlock].

Definition doorbell_failure_events (w : World) (n : Z) : list event :=
  [EvOpen kfd_device_name (w_open w); EvSysconfPagesize;
   EvTopologySysfsGetSystemProps; EvFmmInitProcessApertures n;
   EvInitProcessDoorbells n; EvFmmDestroyProcessApertures;
   EvClose (w_open w); EvMutexUnlock].

(** Which stage of a first open fails, and what it returns, once the
    configuration is loaded and the device is open. *)
Inductive stage_failure (w : World) : HSAKMT_STATUS -> list event -> Prop :=
| TopologyFails e n :
    w_topology w = (e, n) -> e <> HSAKMT_STATUS_SUCCESS ->
    stage_failure w e (topology_failure_events w)
| AperturesFail e n :
    w_topology w = (HSAKMT_STATUS_SUCCESS, n) ->
    w_fmm_init_process_apertures w n = e -> e <> HSAKMT_STATUS_SUCCESS ->
    stage_failure w e (aperture_failure_events w n)
| DoorbellsFail e n :
    w_topology w = (HSAKMT_STATUS_SUCCESS, n) ->
    w_fmm_init_process_apertures w n = HSAKMT_STATUS_SUCCESS ->
    w_init_process_doorbells w n = e -> e <> HSAKMT_STATUS_SUCCESS ->
    stage_failure w e (doorbell_failure_events w n).

(** The calls of the last close, for the handle [fd] that [kfd_fd] holds. *)
Definition last_close_events (fd : Z) : list event :=
  [EvMutexLock; EvDestroyCounterProps; EvDestroyDeviceDebuggingMemory;
   EvDestroyProcessDoorbells; EvFmmDestroyProcessApertures]
  ++ (if fd =? 0 then [] else [EvClose fd])
  ++ [EvMutexUnlock].

(** References held without a fork in sight: the session of process [pid]
    counts [c] references on descriptor [fd]. *)
Definition holds (pid fd : Z) (c : N) (s : State) : Prop :=
  kfd_open_count s = c /\ kfd_fd s = fd /\ hsakmt_forked s = false /\
  (parent_pid s = -1 \/ parent_pid s = pid).

(** The calls between the entry of [hsaKmtOpenKFD] and its test of
    [kfd_open_count], when the fork was seen in [s]. *)
Definition reset_events (s : State) : list event :=
  [EvMutexLock]
  ++ (if hsakmt_forked s then [] else [EvGetpid])
  ++ [EvClearProcessDoorbells; EvClearEventsPage; EvFmmClearAllMem;
      EvDestroyDeviceDebuggingMemory]
  ++ (if kfd_fd s =? 0 then [] else [EvClose (kfd_fd s)]).

(** Two references taken in process 100 on descriptor 3. *)
Definition two_references : State :=
  snd (open_all example_header [world_ok 100 3; world_ok 100 3]
         initial_state).

(** ** Writing an override *)

Definition digit_char (d : Z) : ascii := ascii_of_N (Z.to_N (48 + d)).

(** The decimal digits of [n], most significant first, in front of [rest];
    [fuel] bounds their number. *)
Fixpoint digits_of (fuel : nat) (n : Z) (rest : string) : string :=
  match fuel with
  | O => rest
  | S fuel' =>
      let rest' := String (digit_char (n mod 10)) rest in
      if n <? 10 then rest' else digits_of fuel' (n / 10) rest'
  end.

(** An [unsigned int] has at most ten decimal digits. *)
Definition decimal_then (n : Z) (rest : string) : string :=
  digits_of 10 n rest.

(** The text [major.minor.step dgpu name family]. *)
Definition override_string (major minor step dgpu : Z) (name : string)
           (family : Z) : string :=
  decimal_then major (String "." (decimal_then minor (String "."
    (decimal_then step (String " " (decimal_then dgpu (String " "
      (name ++ String " " (decimal_then family ""))))))))).

(** A name that [%63s] reads whole: not empty, no white space, at most 63
    characters. *)
Fixpoint no_space (s : string) : bool :=
  match s with
  | EmptyString => true
  | String c s' => negb (Scan.isspace c) && no_space s'
  end.

Definition name_ok (name : string) : Prop :=
  name <> EmptyString /\ no_space name = true /\
  (String.length name <= 63)%nat.

Definition fits_uint (n : Z) : Prop := 0 <= n < UINT_MOD.

Definition starts_with_digit (s : string) : Prop :=
  match s with
  | String c _ => Scan.isdigit c = true
  | EmptyString => False
  end.

Definition ends_word (s : string) : Prop :=
  match s with
  | String c _ => Scan.isspace c = true
  | EmptyString => True
  end.

(** The same text cut after the name: five fields. *)
Definition five_field_string (major minor step dgpu : Z) (name : string)
  : string :=
  decimal_then major (String "." (decimal_then minor (String "."
    (decimal_then step (String " " (decimal_then dgpu (String " "
      name))))))).

Definition ends_number (s : string) : Prop :=
  match s with
  | String c _ => Scan.isdigit c = false
  | EmptyString => True
  end.

Definition world_force_asic (v : string) : World :=
  world_of 100 3 (env_force_asic v) (HSAKMT_STATUS_SUCCESS, 2)
           HSAKMT_STATUS_SUCCESS HSAKMT_STATUS_SUCCESS
           HSAKMT_STATUS_SUCCESS HSAKMT_STATUS_SUCCESS.

(** The calls of a first open, after the configuration, that ends before a
    stage is run: the configuration was rejected, or the device did not
    open. *)
Definition early_failure_events (h : Header) (w : World) : list event :=
  if status_eqb (config_status h w) HSAKMT_STATUS_SUCCESS
  then [EvOpen kfd_device_name (w_open w); EvMutexUnlock]
  else [EvMutexUnlock].

(** How a first open ends. *)
Inductive open_first_end (h : Header) (w : World) (installed : bool)
  : HSAKMT_STATUS -> list event -> Prop :=
| EndConfig :
    config_status h w <> HSAKMT_STATUS_SUCCESS ->
    open_first_end h w installed (config_status h w)
                   (early_failure_events h w)
| EndDevice :
    config_status h w = HSAKMT_STATUS_SUCCESS ->
    w_open w = -1 ->
    open_first_end h w installed HSAKMT_STATUS_KERNEL_IO_CHANNEL_NOT_OPENED
                   (early_failure_events h w)
| EndStage e evs :
    config_status h w = HSAKMT_STATUS_SUCCESS ->
    w_open w <> -1 ->
    stage_failure w e evs ->
    open_first_end h w installed e evs
| EndOpened n :
    config_status h w = HSAKMT_STATUS_SUCCESS ->
    w_open w <> -1 ->
    w_topology w = (HSAKMT_STATUS_SUCCESS, n) ->
    w_fmm_init_process_apertures w n = HSAKMT_STATUS_SUCCESS ->
    w_init_process_doorbells w n = HSAKMT_STATUS_SUCCESS ->
    open_first_end h w installed HSAKMT_STATUS_SUCCESS
                   (acquire_events w n installed).

(** Whether the end left the device open (as far as the globals say). *)
Definition acquired (h : Header) (w : World) : bool :=
  status_eqb (config_status h w) HSAKMT_STATUS_SUCCESS
  && negb (w_open w =? -1).

Definition is_mutex_event (e : event) : bool :=
  match e with
  | EvMutexLock | EvMutexUnlock | EvMutexInit => true
  | _ => false
  end.

(** No call on the mutex among [evs]. *)
Definition no_mutex (evs : list event) : bool :=
  forallb (fun e => negb (is_mutex_event e)) evs.

Definition is_atfork (e : event) : bool :=
  match e with
  | EvPthreadAtfork => true
  | _ => false
  end.

(** How often the fork handlers were registered. *)
Definition atfork_registrations (t : list event) : nat :=
  List.length (filter is_atfork t).

(** The marker of the code for a session without handle agrees with the
    count. *)
Definition marker_invariant (s : State) : Prop :=
  kfd_open_count s = 0%N <-> kfd_fd s = 0.

(** The device never opens as descriptor 0 in the opens of [cs]. *)
Definition opens_nonzero (cs : list call) : Prop :=
  Forall (fun c => match c with
                   | CallOpen w => w_open w <> 0
                   | _ => True
                   end) cs.

(** The registrations counted in a trace agree with the latch. *)
Definition latch_invariant (s : State) : Prop :=
  atfork_registrations (trace s) = if atfork_installed s then 1%nat else 0%nat.

(** What [sscanf] can have stored through a pointer argument: a number
    that fits [unsigned int], or a word that [%63s] reads. *)
Definition arg_ok (a : Scan.arg) : Prop :=
  match a with
  | Scan.ArgU v => fits_uint v
  | Scan.ArgS s => name_ok s
  end.

Definition is_word (a : Scan.arg) : bool :=
  match a with
  | Scan.ArgS _ => true
  | Scan.ArgU _ => false
  end.

(** For each conversion of a format, whether it stores a word. *)
Fixpoint conversions (fmt : list Scan.directive) : list bool :=
  match fmt with
  | [] => []
  | Scan.DUInt :: fmt' => false :: conversions fmt'
  | Scan.DStr _ :: fmt' => true :: conversions fmt'
  | _ :: fmt' => conversions fmt'
  end.

Definition widths_ok (fmt : list Scan.directive) : Prop :=
  Forall (fun d => match d with
                   | Scan.DStr w => (0 < w <= 63)%nat
                   | _ => True
                   end) fmt.

(** A session that loaded an override and a flag in process 100. *)
Definition configured_state : State :=
  set_zfb_support 1
    (snd (init_vars_from_env example_header
            (world_force_asic "10.1.0 1 Navi10 14") initial_state)).


(** The opens of the device that succeeded and the closes of descriptors,
    in the order of the calls. *)
Definition device_events (t : list event) : list event :=
  filter (fun e => is_device_open e || is_device_close e) t.

(** [s'] continues the trace of [s], and the device events it adds are
    [d]. *)
Definition adds_device_events (s s' : State) (d : list event) : Prop :=
  exists l, trace s' = trace s ++ l /\ device_events l = d.

(** An environment given by its bindings. *)
Fixpoint env_of (bindings : list (string * string)) (name : string)
  : option string :=
  match bindings with
  | [] => None
  | (k, v) :: rest => if String.eqb name k then Some v else env_of rest name
  end.

Definition world_env (bindings : list (string * string)) : World :=
  world_of 100 3 (env_of bindings) (HSAKMT_STATUS_SUCCESS, 2)
           HSAKMT_STATUS_SUCCESS HSAKMT_STATUS_SUCCESS
           HSAKMT_STATUS_SUCCESS HSAKMT_STATUS_SUCCESS.

(** The configuration after a loading that accepted an override for
    Navi10, with debug level 7 and the zero-frame-buffer flag set. *)
Definition loaded_state : State :=
  snd (init_vars_from_env example_header
         (world_env [("HSAKMT_DEBUG_LEVEL", "7"); ("HSA_ZFB", "1");
                     ("HSA_FORCE_ASIC_TYPE", "10.1.0 1 Navi10 14")]%string)
         initial_state).

(** A later environment whose override lacks the family. *)
Definition world_five_fields : World :=
  world_env
    [("HSA_ZFB", "0"); ("HSA_FORCE_ASIC_TYPE", "9.0.0 1 Vega10")]%string.

(** * Properties *)

Ltac norm_trace := repeat rewrite <- app_assoc; simpl.

Lemma events_since_app (s s' : State) (l : list event) :
  trace s' = trace s ++ l -> events_since s s' = l.
Proof.
  intros H. unfold events_since. rewrite H.
  rewrite skipn_app, skipn_all, Nat.sub_diag. reflexivity.
Qed.

Lemma status_eqb_eq (a b : HSAKMT_STATUS) : status_eqb a b = true <-> a = b.
Proof.
  unfold status_eqb. destruct (HSAKMT_STATUS_eq_dec a b); split; congruence.
Qed.

Lemma status_eqb_refl (a : HSAKMT_STATUS) : status_eqb a a = true.
Proof. now apply status_eqb_eq. Qed.

Lemma status_neqb (a b : HSAKMT_STATUS) :
  negb (status_eqb a b) = true <-> a <> b.
Proof.
  unfold status_eqb. destruct (HSAKMT_STATUS_eq_dec a b); simpl; split;
    congruence.
Qed.

Lemma status_neqb_false (a b : HSAKMT_STATUS) :
  negb (status_eqb a b) = false <-> a = b.
Proof.
  unfold status_eqb. destruct (HSAKMT_STATUS_eq_dec a b); simpl; split;
    congruence.
Qed.

(** ** Configuration loading: what it leaves alone *)

Lemma init_vars_from_env_status h w s s' :
  fst (init_vars_from_env h w s) = fst (init_vars_from_env h w s').
Proof.
  unfold init_vars_from_env, getenv.
  destruct (w_getenv w "HSA_FORCE_ASIC_TYPE") as [v|]; [|reflexivity].
  destruct (Scan.sscanf v force_asic_format) as [n args].
  match goal with |- context [if ?c then _ else _] => destruct c end;
    reflexivity.
Qed.

Lemma config_status_eq h w s :
  fst (init_vars_from_env h w s) = config_status h w.
Proof. apply init_vars_from_env_status. Qed.

Lemma init_vars_from_env_session h w s :
  let r := init_vars_from_env h w s in
  parent_pid (snd r) = parent_pid s /\
  hsakmt_forked (snd r) = hsakmt_forked s /\
  atfork_installed (snd r) = atfork_installed s /\
  kfd_fd (snd r) = kfd_fd s /\
  kfd_open_count (snd r) = kfd_open_count s /\
  PAGE_SIZE (snd r) = PAGE_SIZE s /\
  PAGE_SHIFT (snd r) = PAGE_SHIFT s /\
  trace (snd r) = trace s ++ config_events (fst r).
Proof.
  unfold init_vars_from_env, getenv, config_events.
  destruct (w_getenv w "HSAKMT_DEBUG_LEVEL") as [d|];
  destruct (w_getenv w "HSA_ZFB") as [z|];
  (destruct (w_getenv w "HSA_FORCE_ASIC_TYPE") as [v|];
   [ destruct (Scan.sscanf v force_asic_format) as [n args];
     destruct (Scan.arg_s args 4);
     match goal with
     | |- context [if ?c then (HSAKMT_STATUS_ERROR, _) else _] => destruct c
     end
   | ]);
  simpl;
  repeat match goal with |- context [if ?c then _ else _] => destruct c end;
  simpl; norm_trace; repeat split; reflexivity.
Qed.

(** ** The fork check *)

Lemma is_forked_child_no_fork w s :
  hsakmt_forked s = false ->
  parent_pid s = -1 \/ parent_pid s = w_getpid w ->
  is_forked_child w s = (false, set_parent_pid (w_getpid w) (emit EvGetpid s)).
Proof.
  intros Hf Hp. unfold is_forked_child. rewrite Hf. simpl.
  destruct (Z.eqb_spec (parent_pid s) (-1)) as [|Hn]; [reflexivity|].
  destruct Hp as [Hp|Hp]; [contradiction|].
  rewrite Hp, Z.eqb_refl. simpl.
  destruct s; simpl in *; subst; reflexivity.
Qed.

Lemma is_forked_child_fork w s :
  fork_detected w s ->
  is_forked_child w s
  = (true, if hsakmt_forked s then s
           else set_hsakmt_forked true (emit EvGetpid s)).
Proof.
  intros [Hf|[Hn Hd]]; unfold is_forked_child.
  - rewrite Hf. reflexivity.
  - destruct (hsakmt_forked s); [reflexivity|]. simpl.
    destruct (Z.eqb_spec (parent_pid s) (-1)); [contradiction|].
    destruct (Z.eqb_spec (parent_pid s) (w_getpid w)); [contradiction|].
    reflexivity.
Qed.

(** ** The three ways through [hsaKmtOpenKFD] *)

Lemma open_no_fork_first h w s :
  kfd_open_count s = 0%N ->
  hsakmt_forked s = false ->
  parent_pid s = -1 \/ parent_pid s = w_getpid w ->
  hsaKmtOpenKFD h w s = open_first h w (entered w s).
Proof.
  intros Hc Hf Hp. unfold hsaKmtOpenKFD.
  rewrite is_forked_child_no_fork by (simpl; assumption).
  simpl. rewrite Hc. reflexivity.
Qed.

Lemma open_no_fork_again h w s :
  kfd_open_count s <> 0%N ->
  hsakmt_forked s = false ->
  parent_pid s = -1 \/ parent_pid s = w_getpid w ->
  hsaKmtOpenKFD h w s
  = (HSAKMT_STATUS_KERNEL_ALREADY_OPENED,
     emit EvMutexUnlock
       (set_kfd_open_count (kfd_open_count s + 1)%N (entered w s))).
Proof.
  intros Hc Hf Hp. unfold hsaKmtOpenKFD.
  rewrite is_forked_child_no_fork by (simpl; assumption).
  simpl. destruct (N.eqb_spec (kfd_open_count s) 0); [contradiction|].
  reflexivity.
Qed.

Lemma open_after_fork h w s :
  fork_detected w s ->
  hsaKmtOpenKFD h w s = open_first h w (reset_state s).
Proof.
  intros Hd. unfold hsaKmtOpenKFD.
  rewrite is_forked_child_fork by exact Hd.
  reflexivity.
Qed.

(** ** The first open *)

Lemma open_first_success h w s n :
  config_status h w = HSAKMT_STATUS_SUCCESS ->
  w_open w <> -1 ->
  w_topology w = (HSAKMT_STATUS_SUCCESS, n) ->
  w_fmm_init_process_apertures w n = HSAKMT_STATUS_SUCCESS ->
  w_init_process_doorbells w n = HSAKMT_STATUS_SUCCESS ->
  let r := open_first h w s in
  fst r = HSAKMT_STATUS_SUCCESS /\
  kfd_open_count (snd r) = 1%N /\
  kfd_fd (snd r) = w_open w /\
  atfork_installed (snd r) = true /\
  parent_pid (snd r) = parent_pid s /\
  hsakmt_forked (snd r) = hsakmt_forked s /\
  trace (snd r)
  = trace s ++ config_events HSAKMT_STATUS_SUCCESS
      ++ acquire_events w n (atfork_installed s).
Proof.
  intros Hc Ho Ht Ha Hd.
  pose proof (init_vars_from_env_session h w s) as F.
  unfold open_first. rewrite <- (config_status_eq h w s) in Hc.
  destruct (init_vars_from_env h w s) as [r0 s1].
  simpl in F, Hc. destruct F as (Fp & Ff & Fa & _ & _ & _ & _ & Ft).
  subst r0. simpl.
  destruct (Z.eqb_spec (w_open w) (-1)) as [|_]; [contradiction|].
  rewrite Ht. simpl. rewrite Ha, Hd. simpl.
  unfold acquire_events.
  destruct (status_eqb (w_init_device_debugging_memory w n) _); simpl;
    rewrite Fa; destruct (atfork_installed s); simpl; rewrite Ft;
    norm_trace; repeat split; auto.
Qed.

Lemma open_first_success_inv h w s :
  fst (open_first h w s) = HSAKMT_STATUS_SUCCESS ->
  config_status h w = HSAKMT_STATUS_SUCCESS /\
  w_open w <> -1 /\
  fst (w_topology w) = HSAKMT_STATUS_SUCCESS /\
  w_fmm_init_process_apertures w (snd (w_topology w)) = HSAKMT_STATUS_SUCCESS /\
  w_init_process_doorbells w (snd (w_topology w)) = HSAKMT_STATUS_SUCCESS.
Proof.
  rewrite <- (config_status_eq h w s). unfold open_first.
  destruct (init_vars_from_env h w s) as [r0 s1]. simpl.
  destruct (negb (status_eqb r0 _)) eqn:E0.
  { apply status_neqb in E0. simpl. congruence. }
  apply status_neqb_false in E0.
  destruct (Z.eqb_spec (w_open w) (-1)) as [|Ho]; [simpl; congruence|].
  destruct (w_topology w) as [rt n]. simpl.
  destruct (negb (status_eqb rt _)) eqn:E1.
  { apply status_neqb in E1. simpl. congruence. }
  apply status_neqb_false in E1.
  destruct (negb (status_eqb (w_fmm_init_process_apertures w n) _)) eqn:E2.
  { apply status_neqb in E2. simpl. congruence. }
  apply status_neqb_false in E2.
  destruct (negb (status_eqb (w_init_process_doorbells w n) _)) eqn:E3.
  { apply status_neqb in E3. simpl. congruence. }
  apply status_neqb_false in E3. simpl. auto.
Qed.

Lemma open_first_stage_failure h w s e evs :
  config_status h w = HSAKMT_STATUS_SUCCESS ->
  w_open w <> -1 ->
  stage_failure w e evs ->
  let r := open_first h w s in
  fst r = e /\
  kfd_open_count (snd r) = 1%N /\
  kfd_fd (snd r) = w_open w /\
  parent_pid (snd r) = parent_pid s /\
  hsakmt_forked (snd r) = hsakmt_forked s /\
  trace (snd r) = trace s ++ config_events HSAKMT_STATUS_SUCCESS ++ evs.
Proof.
  intros Hc Ho Hs.
  pose proof (init_vars_from_env_session h w s) as F.
  unfold open_first. rewrite <- (config_status_eq h w s) in Hc.
  destruct (init_vars_from_env h w s) as [r0 s1].
  simpl in F, Hc. destruct F as (Fp & Ff & Fa & _ & _ & _ & _ & Ft).
  subst r0. simpl.
  destruct (Z.eqb_spec (w_open w) (-1)) as [|_]; [contradiction|].
  destruct Hs as [e n Ht He | e n Ht Ha He | e n Ht Ha Hd He];
    rewrite Ht; simpl.
  - apply status_neqb in He. rewrite He. simpl. rewrite Ft. norm_trace.
    repeat split; auto.
  - rewrite Ha. apply status_neqb in He. rewrite He. simpl. rewrite Ft.
    norm_trace. repeat split; auto.
  - rewrite Ha, Hd. simpl. apply status_neqb in He. rewrite He. simpl.
    rewrite Ft. norm_trace. repeat split; auto.
Qed.

(** ** Closing a session that is not open *)

(** C5: [hsaKmtCloseKFD] called with [kfd_open_count = 0] returns
    [HSAKMT_STATUS_KERNEL_IO_CHANNEL_NOT_OPENED]; it takes and releases the
    lock and does nothing else: the handle, the count and every other global
    keep their values, and no subsystem and no descriptor is touched. *)
Theorem close_not_open_is_error (s : State) :
  kfd_open_count s = 0%N ->
  let r := hsaKmtCloseKFD s in
  fst r = HSAKMT_STATUS_KERNEL_IO_CHANNEL_NOT_OPENED /\
  snd r = emit EvMutexUnlock (emit EvMutexLock s) /\
  kfd_fd (snd r) = kfd_fd s /\
  kfd_open_count (snd r) = 0%N /\
  events_since s (snd r) = [EvMutexLock; EvMutexUnlock].
Proof.
  intros H. unfold hsaKmtCloseKFD. simpl. rewrite H. simpl.
  repeat split; try assumption.
  apply events_since_app. simpl. norm_trace. reflexivity.
Qed.

Lemma close_not_open_is_error_witness :
  kfd_open_count initial_state = 0%N /\
  fst (hsaKmtCloseKFD initial_state)
  = HSAKMT_STATUS_KERNEL_IO_CHANNEL_NOT_OPENED.
Proof.
  split; [reflexivity|].
  exact (proj1 (close_not_open_is_error initial_state eq_refl)).
Defined.

(** ** Opening a session that is open *)

(** C7: when [kfd_open_count > 0] and no fork is seen, [hsaKmtOpenKFD]
    returns [HSAKMT_STATUS_KERNEL_ALREADY_OPENED] and adds one to the count;
    between taking and releasing the lock it only calls [getpid]: no
    [getenv], no [open], no topology query, no subsystem init.  The handle,
    the configuration and the page size keep their values. *)
Theorem open_again_only_counts (h : Header) (w : World) (s : State) :
  (0 < kfd_open_count s)%N ->
  hsakmt_forked s = false ->
  parent_pid s = -1 \/ parent_pid s = w_getpid w ->
  let r := hsaKmtOpenKFD h w s in
  fst r = HSAKMT_STATUS_KERNEL_ALREADY_OPENED /\
  kfd_open_count (snd r) = (kfd_open_count s + 1)%N /\
  events_since s (snd r) = [EvMutexLock; EvGetpid; EvMutexUnlock] /\
  kfd_fd (snd r) = kfd_fd s /\
  same_config s (snd r) /\
  atfork_installed (snd r) = atfork_installed s /\
  PAGE_SIZE (snd r) = PAGE_SIZE s /\
  PAGE_SHIFT (snd r) = PAGE_SHIFT s.
Proof.
  intros Hc Hf Hp.
  rewrite open_no_fork_again by (assumption || lia). simpl.
  repeat split.
  apply events_since_app. simpl. norm_trace. reflexivity.
Qed.

Lemma open_again_only_counts_witness :
  let s := snd (hsaKmtOpenKFD example_header (world_ok 100 3) initial_state) in
  (0 < kfd_open_count s)%N /\
  fst (hsaKmtOpenKFD example_header (world_ok 100 3) s)
  = HSAKMT_STATUS_KERNEL_ALREADY_OPENED /\
  kfd_open_count (snd (hsaKmtOpenKFD example_header (world_ok 100 3) s)) = 2%N.
Proof.
  pose proof
    (open_again_only_counts example_header (world_ok 100 3)
       (snd (hsaKmtOpenKFD example_header (world_ok 100 3) initial_state))
       eq_refl eq_refl (or_intror eq_refl)) as H.
  split; [reflexivity|].
  split; [exact (proj1 H) | exact (proj1 (proj2 H))].
Defined.

(** ** The fork tracker *)

Lemma is_forked_child_all_latched ws s :
  hsakmt_forked s = true ->
  forallb (fun b => b) (fst (is_forked_child_all ws s)) = true /\
  snd (is_forked_child_all ws s) = s.
Proof.
  intros Hf. induction ws as [|w ws IH]; simpl; [auto|].
  assert (E : is_forked_child w s = (true, s)).
  { unfold is_forked_child. rewrite Hf. reflexivity. }
  rewrite E.
  destruct (is_forked_child_all ws s) as [bs s2]. simpl in *.
  exact IH.
Qed.

(** C8: [is_forked_child] answers true exactly when the forked flag is set
    or a recorded identity differs from the live one.  Called with nothing
    recorded and the flag clear, as on the first invocation ever, it records
    the live identity and answers false.  A true answer leaves the flag set,
    and so does [child_fork_handler]; with the flag set every later call
    answers true whatever the live identity is, and changes nothing.  Only
    [clear_after_fork] clears the flag and the recorded identity. *)
Theorem is_forked_child_latches (w : World) (s : State) (ws : list World) :
  (fst (is_forked_child w s) = true <-> fork_detected w s) /\
  (hsakmt_forked s = false -> parent_pid s = -1 ->
   fst (is_forked_child w s) = false /\
   parent_pid (snd (is_forked_child w s)) = w_getpid w /\
   hsakmt_forked (snd (is_forked_child w s)) = false) /\
  (fst (is_forked_child w s) = true ->
   hsakmt_forked (snd (is_forked_child w s)) = true /\
   forallb (fun b => b)
     (fst (is_forked_child_all ws (snd (is_forked_child w s)))) = true) /\
  (forallb (fun b => b)
     (fst (is_forked_child_all ws (child_fork_handler s))) = true) /\
  (fst (is_forked_child w s) = false ->
   hsakmt_forked (snd (is_forked_child w s)) = false /\
   parent_pid (snd (is_forked_child w s)) = w_getpid w) /\
  hsakmt_forked (clear_after_fork s) = false /\
  parent_pid (clear_after_fork s) = -1.
Proof.
  assert (Hiff : fst (is_forked_child w s) = true <-> fork_detected w s).
  { split.
    - unfold is_forked_child, fork_detected.
      destruct (hsakmt_forked s); [auto|]. simpl.
      destruct (Z.eqb_spec (parent_pid s) (-1)); [discriminate|].
      destruct (Z.eqb_spec (parent_pid s) (w_getpid w)); [discriminate|].
      auto.
    - intros Hd. rewrite is_forked_child_fork by exact Hd. reflexivity. }
  split; [exact Hiff|].
  split.
  { intros Hf Hp.
    rewrite is_forked_child_no_fork by auto. simpl. auto. }
  split.
  { intros Ht. apply Hiff in Ht.
    rewrite is_forked_child_fork by exact Ht. simpl.
    assert (Hs : hsakmt_forked
                   (if hsakmt_forked s then s
                    else set_hsakmt_forked true (emit EvGetpid s)) = true).
    { destruct (hsakmt_forked s) eqn:E; [exact E | reflexivity]. }
    split; [exact Hs|].
    apply is_forked_child_all_latched. exact Hs. }
  split.
  { apply is_forked_child_all_latched. reflexivity. }
  split.
  { unfold is_forked_child.
    destruct (hsakmt_forked s) eqn:Hf; [discriminate|]. simpl.
    destruct (Z.eqb_spec (parent_pid s) (-1)); [simpl; auto|].
    destruct (Z.eqb_spec (parent_pid s) (w_getpid w)); simpl;
      [auto | discriminate]. }
  split; reflexivity.
Qed.

Lemma is_forked_child_latches_witness :
  (* first call in process 100, then process 200 (a fork), then 100 again *)
  fst (is_forked_child (world_ok 100 3) initial_state) = false /\
  (let s1 := snd (is_forked_child (world_ok 100 3) initial_state) in
   fst (is_forked_child (world_ok 200 3) s1) = true /\
   forallb (fun b => b)
     (fst (is_forked_child_all [world_ok 100 3; world_ok 200 3]
             (snd (is_forked_child (world_ok 200 3) s1)))) = true).
Proof.
  split.
  - exact (proj1 (proj1 (proj2 (is_forked_child_latches
                                   (world_ok 100 3) initial_state []))
                    eq_refl eq_refl)).
  - simpl.
    pose proof (is_forked_child_latches (world_ok 200 3)
                  (snd (is_forked_child (world_ok 100 3) initial_state))
                  [world_ok 100 3; world_ok 200 3]) as H.
    destruct H as (Hiff & _ & Hl & _).
    assert (Ht : fst (is_forked_child (world_ok 200 3)
                        (snd (is_forked_child (world_ok 100 3) initial_state)))
                 = true).
    { apply Hiff. right. split; simpl; lia. }
    split; [exact Ht | exact (proj2 (Hl Ht))].
Defined.

(** ** A stage fails during the first open *)

(** C1 (the code departs from the claim): when a stage fails after the
    device was opened, [hsaKmtOpenKFD] returns that stage's status, tears
    down the stages before the failing one in reverse order and not the
    failing one, and closes the descriptor; but [kfd_open_count] stays at 1
    and [kfd_fd] keeps the descriptor that was just closed. *)
Theorem open_stage_failure_keeps_count
        (h : Header) (w : World) (s : State) (e : HSAKMT_STATUS)
        (evs : list event) :
  kfd_open_count s = 0%N ->
  hsakmt_forked s = false ->
  parent_pid s = -1 \/ parent_pid s = w_getpid w ->
  config_status h w = HSAKMT_STATUS_SUCCESS ->
  w_open w <> -1 ->
  stage_failure w e evs ->
  let r := hsaKmtOpenKFD h w s in
  fst r = e /\
  events_since s (snd r)
  = [EvMutexLock; EvGetpid] ++ config_events HSAKMT_STATUS_SUCCESS ++ evs /\
  subsystem_teardowns evs = rev (removelast (subsystem_inits evs)) /\
  filter is_device_close evs = [EvClose (w_open w)] /\
  kfd_fd (snd r) = w_open w /\
  kfd_open_count (snd r) = 1%N.
Proof.
  intros Hc Hf Hp Hcfg Ho Hs.
  rewrite open_no_fork_first by assumption.
  pose proof (open_first_stage_failure h w (entered w s) e evs Hcfg Ho Hs)
    as (Hr & Hn & Hfd & _ & _ & Ht).
  cbv zeta. repeat split; try assumption.
  - apply events_since_app. rewrite Ht. simpl. norm_trace. reflexivity.
  - destruct Hs; reflexivity.
  - destruct Hs; reflexivity.
Qed.

Lemma open_stage_failure_keeps_count_witness :
  let w := world_doorbells_fail 100 3 in
  let r := hsaKmtOpenKFD example_header w initial_state in
  fst r = HSAKMT_STATUS_NO_MEMORY /\
  subsystem_teardowns (events_since initial_state (snd r)) = [Apertures] /\
  kfd_fd (snd r) = 3 /\
  kfd_open_count (snd r) = 1%N.
Proof.
  assert (Hs : stage_failure (world_doorbells_fail 100 3)
                 HSAKMT_STATUS_NO_MEMORY
                 (doorbell_failure_events (world_doorbells_fail 100 3) 2)).
  { apply DoorbellsFail; [reflexivity | reflexivity | reflexivity
                          | discriminate]. }
  pose proof
    (open_stage_failure_keeps_count example_header
       (world_doorbells_fail 100 3) initial_state HSAKMT_STATUS_NO_MEMORY _
       eq_refl eq_refl (or_introl eq_refl) eq_refl
       ltac:(simpl; lia) Hs) as (Hr & Hev & _ & _ & Hfd & Hn).
  cbv zeta. split; [exact Hr|].
  split; [rewrite Hev; reflexivity|].
  split; [exact Hfd | exact Hn].
Defined.

(** C2 (the code departs from the claim): one [hsaKmtOpenKFD] from the
    initial state, in a world where the topology query fails, returns the
    error and leaves [kfd_open_count = 1] although the descriptor it opened
    was closed again: no descriptor is open, and [kfd_fd] still holds 3. *)
Theorem failed_open_breaks_invariant (h : Header) :
  let w := world_topology_fails 100 3 in
  let s1 := run h [CallOpen w] initial_state in
  fst (hsaKmtOpenKFD h w initial_state) = HSAKMT_STATUS_ERROR /\
  kfd_open_count s1 = 1%N /\
  kfd_fd s1 = 3 /\
  open_descriptors (trace s1) = [] /\
  handle_valid s1 = false /\
  ~ session_invariant s1.
Proof.
  cbv zeta.
  repeat split; try reflexivity.
  intros [_ H]. specialize (H eq_refl). discriminate H.
Qed.

(** ** The stages that cannot fail the open *)

(** C10: in a first open whose configuration, device open, topology query,
    aperture and doorbell stages succeed, a failure of the debug-memory stage
    or of the counter stage changes nothing but a warning: the counter stage
    and the registration of the fork handlers still run, nothing is torn down
    or closed, [kfd_open_count] is 1 and the open returns
    [HSAKMT_STATUS_SUCCESS]. *)
Theorem open_ignores_debug_and_counter_failure
        (h : Header) (w : World) (s : State) (n : Z) :
  kfd_open_count s = 0%N ->
  hsakmt_forked s = false ->
  parent_pid s = -1 \/ parent_pid s = w_getpid w ->
  config_status h w = HSAKMT_STATUS_SUCCESS ->
  w_open w <> -1 ->
  w_topology w = (HSAKMT_STATUS_SUCCESS, n) ->
  w_fmm_init_process_apertures w n = HSAKMT_STATUS_SUCCESS ->
  w_init_process_doorbells w n = HSAKMT_STATUS_SUCCESS ->
  w_init_device_debugging_memory w n <> HSAKMT_STATUS_SUCCESS \/
  w_init_counter_props w n <> HSAKMT_STATUS_SUCCESS ->
  let r := hsaKmtOpenKFD h w s in
  fst r = HSAKMT_STATUS_SUCCESS /\
  kfd_open_count (snd r) = 1%N /\
  kfd_fd (snd r) = w_open w /\
  events_since s (snd r)
  = [EvMutexLock; EvGetpid] ++ config_events HSAKMT_STATUS_SUCCESS
      ++ acquire_events w n (atfork_installed s) /\
  subsystem_inits (events_since s (snd r))
  = [Apertures; Doorbells; DebugMemory; Counters] /\
  subsystem_teardowns (events_since s (snd r)) = [] /\
  device_closes (events_since s (snd r)) = 0%nat /\
  atfork_installed (snd r) = true.
Proof.
  intros Hc Hf Hp Hcfg Ho Ht Ha Hd _.
  rewrite open_no_fork_first by assumption.
  pose proof (open_first_success h w (entered w s) n Hcfg Ho Ht Ha Hd)
    as (Hr & Hn & Hfd & Hat & _ & _ & Htr).
  cbv zeta.
  assert (Hev : events_since s (snd (open_first h w (entered w s)))
                = [EvMutexLock; EvGetpid]
                    ++ config_events HSAKMT_STATUS_SUCCESS
                    ++ acquire_events w n (atfork_installed s)).
  { apply events_since_app. rewrite Htr. simpl. norm_trace. reflexivity. }
  rewrite Hev. unfold acquire_events.
  split; [exact Hr|]. split; [exact Hn|]. split; [exact Hfd|].
  split; [reflexivity|].
  destruct (status_eqb (w_init_device_debugging_memory w n) _);
    destruct (atfork_installed s); simpl; auto.
Qed.

Lemma open_ignores_debug_and_counter_failure_witness :
  let w := world_debug_counters_fail 100 3 in
  let r := hsaKmtOpenKFD example_header w initial_state in
  w_init_device_debugging_memory w 2 <> HSAKMT_STATUS_SUCCESS /\
  w_init_counter_props w 2 <> HSAKMT_STATUS_SUCCESS /\
  fst r = HSAKMT_STATUS_SUCCESS /\
  kfd_open_count (snd r) = 1%N.
Proof.
  cbv zeta. split; [discriminate|]. split; [discriminate|].
  destruct (open_ignores_debug_and_counter_failure example_header
              (world_debug_counters_fail 100 3) initial_state 2)
    as (Hr & Hn & _).
  - reflexivity.
  - reflexivity.
  - left; reflexivity.
  - reflexivity.
  - simpl; lia.
  - reflexivity.
  - reflexivity.
  - reflexivity.
  - left; discriminate.
  - split; [exact Hr | exact Hn].
Defined.

(** ** Counting opens and closes of the device *)

Lemma device_opens_app (t l : list event) :
  device_opens (t ++ l) = (device_opens t + device_opens l)%nat.
Proof. unfold device_opens. rewrite filter_app, length_app. reflexivity. Qed.

Lemma device_closes_app (t l : list event) :
  device_closes (t ++ l) = (device_closes t + device_closes l)%nat.
Proof. unfold device_closes. rewrite filter_app, length_app. reflexivity. Qed.

(** The two ways through the open branch of [hsaKmtCloseKFD]. *)
Lemma close_not_last (s : State) :
  (1 < kfd_open_count s)%N ->
  hsaKmtCloseKFD s
  = (HSAKMT_STATUS_SUCCESS,
     emit EvMutexUnlock
       (set_kfd_open_count (kfd_open_count s - 1)%N (emit EvMutexLock s))).
Proof.
  intros H. unfold hsaKmtCloseKFD. simpl.
  destruct (N.ltb_spec 0 (kfd_open_count s)); [|lia].
  destruct (N.eqb_spec (kfd_open_count s - 1) 0); [lia|]. reflexivity.
Qed.

Lemma close_last (s : State) :
  kfd_open_count s = 1%N ->
  hsaKmtCloseKFD s
  = (HSAKMT_STATUS_SUCCESS,
     emit EvMutexUnlock
       (close_kfd_fd
          (emit EvFmmDestroyProcessApertures
             (emit EvDestroyProcessDoorbells
                (emit EvDestroyDeviceDebuggingMemory
                   (emit EvDestroyCounterProps
                      (set_kfd_open_count 0%N (emit EvMutexLock s)))))))).
Proof.
  intros H. unfold hsaKmtCloseKFD. simpl. rewrite H. reflexivity.
Qed.

Lemma close_last_trace (s : State) :
  kfd_open_count s = 1%N ->
  let r := hsaKmtCloseKFD s in
  fst r = HSAKMT_STATUS_SUCCESS /\
  kfd_open_count (snd r) = 0%N /\
  kfd_fd (snd r) = 0 /\
  trace (snd r) = trace s ++ last_close_events (kfd_fd s).
Proof.
  intros H. rewrite close_last by exact H. unfold close_kfd_fd,
    last_close_events. simpl.
  destruct (kfd_fd s =? 0) eqn:E; simpl; norm_trace.
  - apply Z.eqb_eq in E. auto.
  - auto.
Qed.

Lemma open_all_again h pid fd ws : forall c s,
  (0 < c)%N ->
  holds pid fd c s ->
  Forall (fun w => w_getpid w = pid) ws ->
  let r := open_all h ws s in
  holds pid fd (c + N.of_nat (List.length ws))%N (snd r) /\
  Forall (eq HSAKMT_STATUS_KERNEL_ALREADY_OPENED) (fst r) /\
  device_opens (trace (snd r)) = device_opens (trace s) /\
  device_closes (trace (snd r)) = device_closes (trace s).
Proof.
  induction ws as [|w ws IH]; intros c s Hc Hh Hpid; simpl.
  - rewrite N.add_0_r. auto.
  - destruct Hh as (Hn & Hfd & Hf & Hp).
    inversion Hpid as [|? ? Hw Hws]; subst.
    rewrite open_no_fork_again by (try assumption; lia).
    specialize (IH (kfd_open_count s + 1)%N
                  (emit EvMutexUnlock
                     (set_kfd_open_count (kfd_open_count s + 1)%N
                        (entered w s)))).
    destruct (open_all h ws _) as [rs s2]. simpl in *.
    destruct IH as (Hh2 & Hrs & Ho & Hcl); [lia | | assumption |].
    { unfold holds; simpl. auto. }
    split.
    { replace (kfd_open_count s + N.pos (Pos.of_succ_nat (List.length ws)))%N
        with (kfd_open_count s + 1 + N.of_nat (List.length ws))%N by lia.
      exact Hh2. }
    split; [constructor; auto|].
    rewrite Ho, Hcl. unfold device_opens, device_closes.
    rewrite !filter_app, !length_app. simpl. lia.
Qed.

Lemma close_times_partial : forall n s,
  (N.of_nat n < kfd_open_count s)%N ->
  let r := close_times n s in
  kfd_open_count (snd r) = (kfd_open_count s - N.of_nat n)%N /\
  kfd_fd (snd r) = kfd_fd s /\
  Forall (eq HSAKMT_STATUS_SUCCESS) (fst r) /\
  device_opens (trace (snd r)) = device_opens (trace s) /\
  device_closes (trace (snd r)) = device_closes (trace s).
Proof.
  induction n as [|n IH]; intros s Hlt; simpl.
  - rewrite N.sub_0_r. auto.
  - rewrite close_not_last by lia.
    specialize (IH (emit EvMutexUnlock
                      (set_kfd_open_count (kfd_open_count s - 1)%N
                         (emit EvMutexLock s)))).
    destruct (close_times n _) as [rs s2]. simpl in *.
    destruct IH as (Hn & Hfd & Hrs & Ho & Hcl); [lia|].
    split; [lia|]. split; [assumption|]. split; [constructor; auto|].
    rewrite Ho, Hcl. unfold device_opens, device_closes.
    rewrite !filter_app, !length_app. simpl. lia.
Qed.

Lemma close_times_succ n s :
  close_times (S n) s
  = (fst (close_times n s)
       ++ [fst (hsaKmtCloseKFD (snd (close_times n s)))],
     snd (hsaKmtCloseKFD (snd (close_times n s)))).
Proof.
  revert s. induction n as [|n IH]; intros s.
  - simpl. destruct (hsaKmtCloseKFD s). reflexivity.
  - change (close_times (S (S n)) s)
      with (let (r, s1) := hsaKmtCloseKFD s in
            let (rs, s2) := close_times (S n) s1 in (r :: rs, s2)).
    destruct (hsaKmtCloseKFD s) as [r s1] eqn:E.
    rewrite IH. simpl. rewrite E.
    destruct (close_times n s1). reflexivity.
Qed.


Lemma first_open_counts h w s :
  kfd_open_count s = 0%N ->
  hsakmt_forked s = false ->
  parent_pid s = -1 \/ parent_pid s = w_getpid w ->
  fst (hsaKmtOpenKFD h w s) = HSAKMT_STATUS_SUCCESS ->
  let s1 := snd (hsaKmtOpenKFD h w s) in
  holds (w_getpid w) (w_open w) 1 s1 /\
  device_opens (trace s1) = (device_opens (trace s) + 1)%nat /\
  device_closes (trace s1) = device_closes (trace s).
Proof.
  intros Hc Hf Hp. rewrite open_no_fork_first by assumption. intros Hs.
  destruct (open_first_success_inv h w _ Hs) as (Hcfg & Ho & Ht & Ha & Hd).
  destruct (w_topology w) as [rt n] eqn:Et. simpl in Ht, Ha, Hd. subst rt.
  destruct (open_first_success h w (entered w s) n Hcfg Ho Et Ha Hd)
    as (_ & Hn & Hfd & _ & Hpp & Hff & Htr).
  cbv zeta. split.
  { unfold holds. rewrite Hn, Hfd, Hpp, Hff. simpl. auto. }
  rewrite Htr. unfold device_opens, device_closes, acquire_events,
    config_events. rewrite status_eqb_refl. simpl.
  rewrite !filter_app, !length_app. simpl.
  destruct (Z.eqb_spec (w_open w) (-1)) as [|_]; [contradiction|].
  destruct (status_eqb (w_init_device_debugging_memory w n) _);
    destruct (atfork_installed s); simpl; lia.
Qed.

(** ** Balanced opens and closes *)

Lemma device_events_app (t l : list event) :
  device_events (t ++ l) = device_events t ++ device_events l.
Proof. unfold device_events. apply filter_app. Qed.

Lemma adds_device_events_trans s s1 s2 d1 d2 :
  adds_device_events s s1 d1 -> adds_device_events s1 s2 d2 ->
  adds_device_events s s2 (d1 ++ d2).
Proof.
  intros (l1 & H1 & E1) (l2 & H2 & E2). exists (l1 ++ l2). split.
  - rewrite H2, H1, app_assoc. reflexivity.
  - rewrite device_events_app, E1, E2. reflexivity.
Qed.

Lemma adds_device_events_trace s s' d :
  adds_device_events s s' d ->
  device_events (trace s') = device_events (trace s) ++ d.
Proof.
  intros (l & H & E). rewrite H, device_events_app, E. reflexivity.
Qed.

(** The descriptors open after a trace depend on its device events only. *)
Lemma open_descriptors_from_app (t l : list event) : forall fds,
  open_descriptors_from (t ++ l) fds
  = open_descriptors_from l (open_descriptors_from t fds).
Proof.
  induction t as [|e t IH]; intros fds; [reflexivity|].
  destruct e; simpl; apply IH.
Qed.

Lemma open_descriptors_from_device_events (l : list event) : forall fds,
  open_descriptors_from l fds = open_descriptors_from (device_events l) fds.
Proof.
  induction l as [|e l IH]; intros fds; [reflexivity|].
  destruct e; simpl; try apply IH.
  destruct (Z.eqb_spec ret (-1)); simpl; [apply IH|].
  destruct (Z.eqb_spec ret (-1)); [contradiction|]. apply IH.
Qed.

Lemma adds_device_events_descriptors s s' d :
  adds_device_events s s' d ->
  open_descriptors (trace s')
  = open_descriptors_from d (open_descriptors (trace s)).
Proof.
  intros (l & H & E). unfold open_descriptors.
  rewrite H, open_descriptors_from_app, open_descriptors_from_device_events, E.
  reflexivity.
Qed.

Lemma first_open_adds h w s :
  kfd_open_count s = 0%N ->
  hsakmt_forked s = false ->
  parent_pid s = -1 \/ parent_pid s = w_getpid w ->
  fst (hsaKmtOpenKFD h w s) = HSAKMT_STATUS_SUCCESS ->
  adds_device_events s (snd (hsaKmtOpenKFD h w s))
                     [EvOpen kfd_device_name (w_open w)].
Proof.
  intros Hc Hf Hp. rewrite open_no_fork_first by assumption. intros Hs.
  destruct (open_first_success_inv h w _ Hs) as (Hcfg & Ho & Ht & Ha & Hd).
  destruct (w_topology w) as [rt n] eqn:Et. simpl in Ht, Ha, Hd. subst rt.
  destruct (open_first_success h w (entered w s) n Hcfg Ho Et Ha Hd)
    as (_ & _ & _ & _ & _ & _ & Htr).
  exists ([EvMutexLock; EvGetpid] ++ config_events HSAKMT_STATUS_SUCCESS
            ++ acquire_events w n (atfork_installed (entered w s))).
  split; [rewrite Htr; simpl; norm_trace; reflexivity|].
  unfold device_events, acquire_events, config_events.
  rewrite status_eqb_refl. simpl.
  destruct (Z.eqb_spec (w_open w) (-1)) as [|_]; [contradiction|].
  destruct (status_eqb (w_init_device_debugging_memory w n) _);
    destruct (atfork_installed s); reflexivity.
Qed.

Lemma open_all_again_adds h pid fd ws : forall c s,
  (0 < c)%N ->
  holds pid fd c s ->
  Forall (fun w => w_getpid w = pid) ws ->
  adds_device_events s (snd (open_all h ws s)) [].
Proof.
  induction ws as [|w ws IH]; intros c s Hc Hh Hpid; simpl.
  - exists []. split; [rewrite app_nil_r|]; reflexivity.
  - destruct Hh as (Hn & Hfd & Hf & Hp).
    inversion Hpid as [|? ? Hw Hws]; subst.
    rewrite open_no_fork_again by (try assumption; lia).
    specialize (IH (kfd_open_count s + 1)%N
                  (emit EvMutexUnlock
                     (set_kfd_open_count (kfd_open_count s + 1)%N
                        (entered w s)))).
    destruct (open_all h ws _) as [rs s2]. simpl in *.
    apply (adds_device_events_trans s
             (emit EvMutexUnlock
                (set_kfd_open_count (kfd_open_count s + 1)%N (entered w s)))
             s2 [] []).
    + exists [EvMutexLock; EvGetpid; EvMutexUnlock].
      split; [simpl; norm_trace|]; reflexivity.
    + apply IH; [lia | | assumption]. unfold holds; simpl. auto.
Qed.

Lemma close_times_partial_adds : forall n s,
  (N.of_nat n < kfd_open_count s)%N ->
  adds_device_events s (snd (close_times n s)) [].
Proof.
  induction n as [|n IH]; intros s Hlt; simpl.
  - exists []. split; [rewrite app_nil_r|]; reflexivity.
  - rewrite close_not_last by lia.
    specialize (IH (emit EvMutexUnlock
                      (set_kfd_open_count (kfd_open_count s - 1)%N
                         (emit EvMutexLock s)))).
    destruct (close_times n _) as [rs s2]. simpl in *.
    apply (adds_device_events_trans s
             (emit EvMutexUnlock
                (set_kfd_open_count (kfd_open_count s - 1)%N
                   (emit EvMutexLock s)))
             s2 [] []).
    + exists [EvMutexLock; EvMutexUnlock].
      split; [simpl; norm_trace|]; reflexivity.
    + apply IH. lia.
Qed.

Lemma close_last_adds s :
  kfd_open_count s = 1%N ->
  kfd_fd s <> 0 ->
  adds_device_events s (snd (hsaKmtCloseKFD s)) [EvClose (kfd_fd s)].
Proof.
  intros Hc Hfd. destruct (close_last_trace s Hc) as (_ & _ & _ & Htr).
  exists (last_close_events (kfd_fd s)). split; [exact Htr|].
  unfold last_close_events.
  destruct (Z.eqb_spec (kfd_fd s) 0); [contradiction|]. reflexivity.
Qed.


(** C3 (as amended): from a state without references, when the first of
    [N >= 1] opens in one process returns [HSAKMT_STATUS_SUCCESS] and the
    descriptor it obtained is not 0, the other opens succeed as well, the [N]
    closes that follow all succeed, and over the whole sequence the device is
    opened once, by the first open, and closed once, by the last close and
    not before: the device events added to the trace are the open that
    returned the descriptor and the close of that same descriptor, which is
    open until the last close and not open after it. *)
Theorem open_close_balanced
        (h : Header) (w : World) (ws : list World) (s : State) :
  kfd_open_count s = 0%N ->
  hsakmt_forked s = false ->
  parent_pid s = -1 \/ parent_pid s = w_getpid w ->
  Forall (fun w' => w_getpid w' = w_getpid w) ws ->
  fst (hsaKmtOpenKFD h w s) = HSAKMT_STATUS_SUCCESS ->
  w_open w <> 0 ->
  let opened := open_all h (w :: ws) s in
  let before_last := close_times (List.length ws) (snd opened) in
  let closed := close_times (S (List.length ws)) (snd opened) in
  forallb open_succeeded (fst opened) = true /\
  Forall (eq HSAKMT_STATUS_SUCCESS) (fst closed) /\
  device_opens (trace (snd (hsaKmtOpenKFD h w s)))
  = (device_opens (trace s) + 1)%nat /\
  device_opens (trace (snd closed)) = (device_opens (trace s) + 1)%nat /\
  device_closes (trace (snd before_last)) = device_closes (trace s) /\
  device_closes (trace (snd closed)) = (device_closes (trace s) + 1)%nat /\
  kfd_open_count (snd closed) = 0%N /\
  device_events (trace (snd (hsaKmtOpenKFD h w s)))
  = device_events (trace s) ++ [EvOpen kfd_device_name (w_open w)] /\
  device_events (trace (snd before_last))
  = device_events (trace s) ++ [EvOpen kfd_device_name (w_open w)] /\
  device_events (trace (snd closed))
  = device_events (trace s)
      ++ [EvOpen kfd_device_name (w_open w); EvClose (w_open w)] /\
  In (w_open w) (open_descriptors (trace (snd before_last))) /\
  ~ In (w_open w) (open_descriptors (trace (snd closed))).
Proof.
  intros Hc Hf Hp Hpid Hs Hfd0.
  destruct (first_open_counts h w s Hc Hf Hp Hs) as (Hh & Ho1 & Hc1).
  pose proof (first_open_adds h w s Hc Hf Hp Hs) as Ha1.
  cbv zeta.
  change (open_all h (w :: ws) s)
    with (let (r, s1) := hsaKmtOpenKFD h w s in
          let (rs, s2) := open_all h ws s1 in (r :: rs, s2)).
  destruct (hsaKmtOpenKFD h w s) as [r s1]. cbn [fst snd] in *.
  subst r.
  assert (H01 : (0 < 1)%N) by lia.
  destruct (open_all_again h (w_getpid w) (w_open w) ws 1%N s1 H01 Hh Hpid)
    as (Hh2 & Hrs & Ho2 & Hc2).
  pose proof (open_all_again_adds h (w_getpid w) (w_open w) ws 1%N s1
                H01 Hh Hpid) as Ha2.
  destruct (open_all h ws s1) as [rs s2]. cbn [fst snd] in *.
  destruct Hh2 as (Hn2 & Hfd2 & _).
  assert (Hlt : (N.of_nat (List.length ws) < kfd_open_count s2)%N) by lia.
  destruct (close_times_partial (List.length ws) s2 Hlt)
    as (Hn3 & Hfd3 & Hrs3 & Ho3 & Hc3).
  pose proof (close_times_partial_adds (List.length ws) s2 Hlt) as Ha3.
  rewrite close_times_succ. cbn [fst snd].
  set (s3 := snd (close_times (List.length ws) s2)) in *.
  assert (Hn3' : kfd_open_count s3 = 1%N) by lia.
  assert (Hfd3' : kfd_fd s3 = w_open w) by congruence.
  destruct (close_last_trace s3 Hn3') as (Hr4 & Hn4 & _ & Ht4).
  assert (Ha4 : adds_device_events s3 (snd (hsaKmtCloseKFD s3))
                  [EvClose (w_open w)]).
  { rewrite <- Hfd3'. apply close_last_adds; [exact Hn3' | congruence]. }
  assert (Hb : adds_device_events s s3 [EvOpen kfd_device_name (w_open w)]).
  { pose proof (adds_device_events_trans _ _ _ _ _ Ha1
                  (adds_device_events_trans _ _ _ _ _ Ha2 Ha3)) as H.
    exact H. }
  assert (Hz : adds_device_events s (snd (hsaKmtCloseKFD s3))
                 [EvOpen kfd_device_name (w_open w); EvClose (w_open w)]).
  { exact (adds_device_events_trans _ _ _ _ _ Hb Ha4). }
  assert (Hne : w_open w <> -1).
  { destruct Ha1 as (l & _ & El). intros E. rewrite E in El.
    assert (Hin : In (EvOpen kfd_device_name (-1)) (device_events l))
      by (rewrite El; left; reflexivity).
    unfold device_events in Hin. apply filter_In in Hin.
    destruct Hin as [_ Hin]. discriminate Hin. }
  split.
  { simpl. clear -Hrs. induction Hrs as [|x l Hx _ IH]; [reflexivity|].
    simpl. subst x. exact IH. }
  split.
  { apply Forall_app. split; [exact Hrs3|]. constructor; [|constructor].
    symmetry. exact Hr4. }
  split; [exact Ho1|].
  assert (Hlc : device_opens (last_close_events (kfd_fd s3)) = 0%nat /\
                device_closes (last_close_events (kfd_fd s3)) = 1%nat).
  { rewrite Hfd3'. unfold last_close_events.
    destruct (Z.eqb_spec (w_open w) 0); [contradiction|]. split; reflexivity. }
  rewrite Ht4, device_opens_app, device_closes_app.
  destruct Hlc as [Hl1 Hl2]. rewrite Hl1, Hl2.
  split; [lia|]. split; [lia|]. split; [lia|]. split; [exact Hn4|].
  rewrite <- Ht4.
  split; [exact (adds_device_events_trace _ _ _ Ha1)|].
  split; [exact (adds_device_events_trace _ _ _ Hb)|].
  split; [exact (adds_device_events_trace _ _ _ Hz)|].
  rewrite (adds_device_events_descriptors _ _ _ Hb).
  rewrite (adds_device_events_descriptors _ _ _ Hz).
  simpl. destruct (Z.eqb_spec (w_open w) (-1)) as [|_]; [contradiction|].
  split; [left; reflexivity|].
  simpl. destruct (Z.eq_dec (w_open w) (w_open w)) as [_|Hx];
    [|contradiction]. apply remove_In.
Qed.


Lemma reset_state_session (s : State) :
  kfd_open_count (reset_state s) = 0%N /\
  kfd_fd (reset_state s) = 0 /\
  hsakmt_forked (reset_state s) = false /\
  parent_pid (reset_state s) = -1 /\
  atfork_installed (reset_state s) = atfork_installed s /\
  same_config s (reset_state s) /\
  trace (reset_state s) = trace s ++ reset_events s.
Proof.
  unfold reset_state, clear_after_fork, close_kfd_fd, reset_events,
    same_config.
  destruct (hsakmt_forked s); simpl;
    destruct (Z.eqb_spec (kfd_fd s) 0) as [E|E]; simpl; norm_trace;
    repeat split; auto.
Qed.

(** A fork is seen or it is not. *)
Lemma fork_detected_dec w s :
  fork_detected w s \/
  (hsakmt_forked s = false /\ (parent_pid s = -1 \/ parent_pid s = w_getpid w)).
Proof.
  unfold fork_detected. destruct (hsakmt_forked s); [auto|].
  destruct (Z.eq_dec (parent_pid s) (-1)); [auto|].
  destruct (Z.eq_dec (parent_pid s) (w_getpid w)); auto.
Qed.

(** An open that returns [HSAKMT_STATUS_SUCCESS] ran the four stages, in the
    order of the source, from whatever state it was called. *)
Lemma open_success_inits h w s :
  fst (hsaKmtOpenKFD h w s) = HSAKMT_STATUS_SUCCESS ->
  subsystem_inits (events_since s (snd (hsaKmtOpenKFD h w s)))
  = [Apertures; Doorbells; DebugMemory; Counters].
Proof.
  assert (Hfirst : forall s0 pre,
             trace s0 = trace s ++ pre -> subsystem_inits pre = [] ->
             fst (open_first h w s0) = HSAKMT_STATUS_SUCCESS ->
             subsystem_inits (events_since s (snd (open_first h w s0)))
             = [Apertures; Doorbells; DebugMemory; Counters]).
  { intros s0 pre Hpre Hnone Hs.
    destruct (open_first_success_inv h w _ Hs) as (Hcfg & Ho & Ht & Ha & Hd).
    destruct (w_topology w) as [rt n] eqn:Et. simpl in Ht, Ha, Hd. subst rt.
    destruct (open_first_success h w s0 n Hcfg Ho Et Ha Hd)
      as (_ & _ & _ & _ & _ & _ & Htr).
    rewrite (events_since_app s _
               (pre ++ config_events HSAKMT_STATUS_SUCCESS
                    ++ acquire_events w n (atfork_installed s0))).
    - unfold subsystem_inits in *. 
      assert (Happ : forall l1 l2 : list event,
                 pick init_of (l1 ++ l2) = pick init_of l1 ++ pick init_of l2).
      { induction l1 as [|a l1 IH]; intros l2; simpl; [reflexivity|].
        rewrite IH. destruct (init_of a); reflexivity. }
      rewrite Happ, Hnone. unfold acquire_events. simpl.
      destruct (status_eqb (w_init_device_debugging_memory w n) _);
        destruct (atfork_installed s0); reflexivity.
    - rewrite Htr, Hpre. norm_trace. reflexivity. }
  destruct (fork_detected_dec w s) as [Hd|[Hf Hp]].
  - rewrite open_after_fork by exact Hd.
    destruct (reset_state_session s) as (_ & _ & _ & _ & _ & _ & Htr).
    apply (Hfirst _ _ Htr).
    unfold reset_events.
    destruct (hsakmt_forked s); destruct (kfd_fd s =? 0); reflexivity.
  - destruct (N.eq_dec (kfd_open_count s) 0) as [Hc|Hc].
    + rewrite open_no_fork_first by assumption.
      apply (Hfirst _ [EvMutexLock; EvGetpid]); [|reflexivity].
      simpl. norm_trace. reflexivity.
    + rewrite open_no_fork_again by assumption. simpl. discriminate.
Qed.

(** ** The last close *)

(** C4 (as amended): the close that takes [kfd_open_count] from 1 to 0
    returns [HSAKMT_STATUS_SUCCESS] and, between taking and releasing the
    lock, destroys counters, debug memory, doorbells and apertures, which is
    the reverse of the order in which a successful open initialised them;
    after that it closes the descriptor in [kfd_fd] when that is not 0, and
    leaves [kfd_fd = 0]. *)
Theorem last_close_tears_down
        (h : Header) (w : World) (s0 s : State) :
  fst (hsaKmtOpenKFD h w s0) = HSAKMT_STATUS_SUCCESS ->
  kfd_open_count s = 1%N ->
  let opened := snd (hsaKmtOpenKFD h w s0) in
  let r := hsaKmtCloseKFD s in
  fst r = HSAKMT_STATUS_SUCCESS /\
  kfd_open_count (snd r) = 0%N /\
  kfd_fd (snd r) = 0 /\
  events_since s (snd r)
  = [EvMutexLock; EvDestroyCounterProps; EvDestroyDeviceDebuggingMemory;
     EvDestroyProcessDoorbells; EvFmmDestroyProcessApertures]
    ++ (if kfd_fd s =? 0 then [] else [EvClose (kfd_fd s)])
    ++ [EvMutexUnlock] /\
  subsystem_teardowns (events_since s (snd r))
  = rev (subsystem_inits (events_since s0 opened)).
Proof.
  intros Hs Hc. cbv zeta.
  rewrite (open_success_inits h w s0 Hs).
  destruct (close_last_trace s Hc) as (Hr & Hn & Hfd & Htr).
  apply events_since_app in Htr. rewrite Htr.
  split; [exact Hr|]. split; [exact Hn|]. split; [exact Hfd|].
  split; [reflexivity|].
  unfold last_close_events. destruct (kfd_fd s =? 0); reflexivity.
Qed.

Lemma last_close_tears_down_witness :
  let s := snd (hsaKmtOpenKFD example_header (world_ok 100 3) initial_state) in
  kfd_open_count s = 1%N /\
  fst (hsaKmtCloseKFD s) = HSAKMT_STATUS_SUCCESS /\
  events_since s (snd (hsaKmtCloseKFD s))
  = [EvMutexLock; EvDestroyCounterProps; EvDestroyDeviceDebuggingMemory;
     EvDestroyProcessDoorbells; EvFmmDestroyProcessApertures; EvClose 3;
     EvMutexUnlock].
Proof.
  cbv zeta. split; [reflexivity|].
  destruct (last_close_tears_down example_header (world_ok 100 3)
              initial_state
              (snd (hsaKmtOpenKFD example_header (world_ok 100 3)
                      initial_state)))
    as (Hr & _ & _ & Hev & _).
  - reflexivity.
  - reflexivity.
  - split; [exact Hr | exact Hev].
Defined.

(** The claim C4 without its amendment fails when the device was opened as
    descriptor 0: the open succeeds, the last close succeeds and tears the
    subsystems down, and no descriptor is closed. *)
Lemma last_close_keeps_descriptor_zero :
  let s := snd (hsaKmtOpenKFD example_header (world_ok 100 0) initial_state) in
  fst (hsaKmtOpenKFD example_header (world_ok 100 0) initial_state)
  = HSAKMT_STATUS_SUCCESS /\
  kfd_open_count s = 1%N /\
  fst (hsaKmtCloseKFD s) = HSAKMT_STATUS_SUCCESS /\
  kfd_open_count (snd (hsaKmtCloseKFD s)) = 0%N /\
  filter is_device_close (events_since s (snd (hsaKmtCloseKFD s))) = [] /\
  open_descriptors (trace (snd (hsaKmtCloseKFD s))) = [0].
Proof. cbv zeta. repeat split. Qed.

Lemma open_close_balanced_witness :
  let w := world_ok 100 3 in
  let opened := open_all example_header [w; w; w] initial_state in
  let closed := close_times 3 (snd opened) in
  w_open w <> 0 /\
  device_opens (trace (snd closed)) = 1%nat /\
  device_closes (trace (snd closed)) = 1%nat /\
  device_events (trace (snd closed)) = [EvOpen kfd_device_name 3; EvClose 3] /\
  ~ In 3 (open_descriptors (trace (snd closed))).
Proof.
  cbv zeta. split; [simpl; lia|].
  destruct (open_close_balanced example_header (world_ok 100 3)
              [world_ok 100 3; world_ok 100 3] initial_state)
    as (_ & _ & _ & Ho & _ & Hc & _ & _ & _ & He & _ & Hn).
  - reflexivity.
  - reflexivity.
  - left; reflexivity.
  - repeat constructor.
  - reflexivity.
  - simpl; lia.
  - split; [exact Ho|]. split; [exact Hc|]. split; [exact He | exact Hn].
Defined.


(** The claim C3 without its amendment fails for [N = 1] when the device is
    opened as descriptor 0: one successful open and one successful close
    open the device once and close nothing. *)
Lemma open_close_unbalanced_descriptor_zero :
  let opened := open_all example_header [world_ok 100 0] initial_state in
  let closed := close_times 1 (snd opened) in
  fst opened = [HSAKMT_STATUS_SUCCESS] /\
  fst closed = [HSAKMT_STATUS_SUCCESS] /\
  device_opens (trace (snd closed)) = 1%nat /\
  device_closes (trace (snd closed)) <> 1%nat.
Proof. cbv zeta. repeat split. discriminate. Qed.


(** ** Opening after a fork *)






Lemma digit_char_spec (d : Z) :
  0 <= d < 10 ->
  Scan.isdigit (digit_char d) = true /\ Scan.digit_value (digit_char d) = d.
Proof.
  intros H.
  assert (E : d = 0 \/ d = 1 \/ d = 2 \/ d = 3 \/ d = 4 \/ d = 5 \/ d = 6 \/
              d = 7 \/ d = 8 \/ d = 9) by lia.
  repeat (destruct E as [E|E]; [subst; split; reflexivity|]).
  subst; split; reflexivity.
Qed.

Lemma isdigit_not_space_sign (c : ascii) (s : string) :
  Scan.isdigit c = true ->
  Scan.isspace c = false /\ Scan.scan_sign (String c s) = (false, String c s).
Proof.
  destruct c as [[] [] [] [] [] [] [] []]; intros H;
    try discriminate H; split; reflexivity.
Qed.

Lemma scan_digits_end (s : string) (acc : Z) :
  ends_number s -> Scan.scan_digits s acc = (acc, s).
Proof.
  destruct s as [|c s]; simpl; [reflexivity|]. intros H. rewrite H.
  reflexivity.
Qed.

Lemma scan_digits_digits_of (fuel : nat) : forall n rest,
  0 <= n < 10 ^ Z.of_nat fuel ->
  Scan.scan_digits (digits_of fuel n rest) 0 = Scan.scan_digits rest n.
Proof.
  induction fuel as [|fuel IH]; intros n rest Hn.
  - simpl in Hn. assert (n = 0) by lia. subst. reflexivity.
  - cbn [digits_of].
    assert (Hm : 0 <= n mod 10 < 10) by (apply Z.mod_pos_bound; lia).
    destruct (digit_char_spec (n mod 10) Hm) as [Hd Hv].
    destruct (Z.ltb_spec n 10) as [Hlt|Hge].
    + simpl. rewrite Hd, Hv. rewrite Z.mod_small by lia. reflexivity.
    + rewrite IH.
      * simpl. rewrite Hd, Hv. f_equal.
        pose proof (Z.div_mod n 10 ltac:(lia)). lia.
      * split; [apply Z.div_pos; lia|].
        apply Z.div_lt_upper_bound; [lia|].
        rewrite Nat2Z.inj_succ, Z.pow_succ_r in Hn by lia. lia.
Qed.

Lemma digits_of_head (fuel : nat) : forall n rest,
  fuel <> O \/ starts_with_digit rest ->
  starts_with_digit (digits_of fuel n rest).
Proof.
  induction fuel as [|fuel IH]; intros n rest H.
  - destruct H as [H|H]; [contradiction | exact H].
  - cbn [digits_of].
    assert (Hm : 0 <= n mod 10 < 10) by (apply Z.mod_pos_bound; lia).
    destruct (digit_char_spec (n mod 10) Hm) as [Hd _].
    destruct (n <? 10); [exact Hd|].
    apply IH. right. exact Hd.
Qed.

Lemma decimal_then_head (n : Z) (rest : string) :
  starts_with_digit (decimal_then n rest).
Proof. apply digits_of_head. left. discriminate. Qed.

Lemma scan_integer_decimal (n : Z) (rest : string) :
  fits_uint n -> ends_number rest ->
  Scan.scan_integer (decimal_then n rest) = Scan.Conv (false, n) rest.
Proof.
  intros Hn Hr. unfold decimal_then.
  pose proof (decimal_then_head n rest) as Hh. unfold decimal_then in Hh.
  pose proof (scan_digits_digits_of 10 n rest) as Hs.
  destruct (digits_of 10 n rest) as [|c t] eqn:E; [contradiction|].
  simpl in Hh. unfold Scan.scan_integer.
  destruct (isdigit_not_space_sign c t Hh) as [Hsp Hsg].
  cbn [Scan.skip_space]. rewrite Hsp, Hsg, Hh, Hs.
  - rewrite scan_digits_end by exact Hr. reflexivity.
  - unfold fits_uint, UINT_MOD in Hn. simpl. lia.
Qed.

Lemma stored_uint (n : Z) :
  fits_uint n -> to_uint32 (Scan.strtoul_value (false, n)) = n.
Proof.
  unfold fits_uint, to_uint32, Scan.strtoul_value, ULONG_MAX, UINT_MOD.
  intros H. destruct (Z.ltb_spec (2 ^ 64 - 1) n); [lia|].
  apply Z.mod_small. lia.
Qed.

Lemma skip_space_decimal (n : Z) (rest : string) :
  Scan.skip_space (decimal_then n rest) = decimal_then n rest.
Proof.
  pose proof (decimal_then_head n rest) as Hh. unfold decimal_then in *.
  destruct (digits_of 10 n rest) as [|c t]; [reflexivity|].
  simpl in *. destruct (isdigit_not_space_sign c t Hh) as [Hsp _].
  rewrite Hsp. reflexivity.
Qed.

Lemma scan_word_name (name : string) : forall (width : nat) (rest : string),
  no_space name = true ->
  (String.length name <= width)%nat ->
  ends_word rest ->
  Scan.scan_word width (name ++ rest) = (name, rest).
Proof.
  induction name as [|c name IH]; intros width rest Hn Hl Hr.
  - simpl. destruct width; [reflexivity|].
    destruct rest as [|c rest]; [reflexivity|]. simpl in *. rewrite Hr.
    reflexivity.
  - simpl in Hn, Hl. apply andb_true_iff in Hn. destruct Hn as [Hc Hn].
    apply negb_true_iff in Hc.
    destruct width as [|width]; [lia|].
    simpl. rewrite Hc, IH by (assumption || lia). reflexivity.
Qed.

Lemma skip_space_name (name rest : string) :
  name <> EmptyString -> no_space name = true ->
  exists c t, (name ++ rest)%string = String c t /\
              Scan.isspace c = false.
Proof.
  destruct name as [|c name]; [contradiction|]. intros _ Hn. simpl in Hn.
  apply andb_true_iff in Hn. destruct Hn as [Hc _].
  apply negb_true_iff in Hc.
  exists c, (name ++ rest)%string. simpl. auto.
Qed.

(** [sscanf] reads back what [override_string] wrote. *)
Lemma sscanf_override_string (major minor step dgpu : Z) (name : string)
      (family : Z) :
  fits_uint major -> fits_uint minor -> fits_uint step -> fits_uint dgpu ->
  name_ok name -> fits_uint family ->
  Scan.sscanf (override_string major minor step dgpu name family)
              force_asic_format
  = (6, [Scan.ArgU major; Scan.ArgU minor; Scan.ArgU step; Scan.ArgU dgpu;
         Scan.ArgS name; Scan.ArgU family]).
Proof.
  intros Hma Hmi Hst Hdg (Hne & Hns & Hnl) Hfa.
  unfold Scan.sscanf, override_string, force_asic_format.
  cbn [Scan.sscanf_from].
  rewrite scan_integer_decimal by (assumption || reflexivity).
  rewrite stored_uint by assumption. cbn [Ascii.eqb Bool.eqb app].
  rewrite scan_integer_decimal by (assumption || reflexivity).
  rewrite stored_uint by assumption. cbn [Ascii.eqb Bool.eqb app].
  rewrite scan_integer_decimal by (assumption || reflexivity).
  rewrite stored_uint by assumption. cbn [app].
  change (Scan.skip_space (String " " ?x)) with (Scan.skip_space x).
  cbn [Scan.skip_space]. 
  change (Scan.isspace " ") with true. cbv iota.
  rewrite skip_space_decimal.
  rewrite scan_integer_decimal by (assumption || reflexivity).
  rewrite stored_uint by assumption. cbn [app].
  cbn [Scan.skip_space]. change (Scan.isspace " ") with true. cbv iota.
  destruct (skip_space_name name (String " " (decimal_then family ""))
              Hne Hns) as (c & t & E1 & E2).
  rewrite E1. cbn [Scan.skip_space]. rewrite E2. cbv iota.
  cbn [Scan.skip_space]. rewrite E2. cbv iota. rewrite <- E1.
  rewrite scan_word_name by (assumption || reflexivity). cbn [app].
  cbn [Scan.skip_space]. change (Scan.isspace " ") with true. cbv iota.
  rewrite skip_space_decimal.
  rewrite scan_integer_decimal by (assumption || exact I).
  rewrite stored_uint by assumption. reflexivity.
Qed.

Lemma sscanf_five_field_string (major minor step dgpu : Z) (name : string) :
  fits_uint major -> fits_uint minor -> fits_uint step -> fits_uint dgpu ->
  name_ok name ->
  Scan.sscanf (five_field_string major minor step dgpu name)
              force_asic_format
  = (5, [Scan.ArgU major; Scan.ArgU minor; Scan.ArgU step; Scan.ArgU dgpu;
         Scan.ArgS name]).
Proof.
  intros Hma Hmi Hst Hdg (Hne & Hns & Hnl).
  unfold Scan.sscanf, five_field_string, force_asic_format.
  cbn [Scan.sscanf_from].
  rewrite scan_integer_decimal by (assumption || reflexivity).
  rewrite stored_uint by assumption. cbn [Ascii.eqb Bool.eqb app].
  rewrite scan_integer_decimal by (assumption || reflexivity).
  rewrite stored_uint by assumption. cbn [Ascii.eqb Bool.eqb app].
  rewrite scan_integer_decimal by (assumption || reflexivity).
  rewrite stored_uint by assumption. cbn [app].
  cbn [Scan.skip_space]. change (Scan.isspace " ") with true. cbv iota.
  rewrite skip_space_decimal.
  rewrite scan_integer_decimal by (assumption || reflexivity).
  rewrite stored_uint by assumption. cbn [app].
  cbn [Scan.skip_space]. change (Scan.isspace " ") with true. cbv iota.
  destruct (skip_space_name name EmptyString Hne Hns) as (c & t & E1 & E2).
  assert (En : (name ++ "")%string = name).
  { clear. induction name as [|a n IH]; simpl; [|rewrite IH]; reflexivity. }
  rewrite En in E1.
  rewrite E1. cbn [Scan.skip_space]. rewrite E2. cbv iota.
  cbn [Scan.skip_space]. rewrite E2. cbv iota. rewrite <- E1.
  rewrite <- En at 1.
  rewrite scan_word_name by (assumption || exact I). reflexivity.
Qed.


(** What [init_vars_from_env] does with the override once [sscanf] has
    returned [n] and [args]. *)
Lemma init_vars_from_env_override h w s v n args :
  w_getenv w "HSA_FORCE_ASIC_TYPE" = Some v ->
  Scan.sscanf v force_asic_format = (n, args) ->
  let r := init_vars_from_env h w s in
  let rejected :=
    negb (n =? 6)
    || ((63 <? Scan.arg_u args 0) || (255 <? Scan.arg_u args 1)
        || (255 <? Scan.arg_u args 2))
    || (1 <? Scan.arg_u args 3) || (CHIP_LAST h <=? Scan.arg_u args 5) in
  force_asic_name (snd r)
  = match Scan.arg_s args 4 with
    | Some name => name
    | None => force_asic_name s
    end /\
  if rejected then
    fst r = HSAKMT_STATUS_ERROR /\
    force_asic_entry (snd r) = force_asic_entry s /\
    force_asic (snd r) = force_asic s
  else
    fst r = HSAKMT_STATUS_SUCCESS /\
    force_asic_entry (snd r)
    = {| major := Scan.arg_u args 0; minor := Scan.arg_u args 1;
         stepping := Scan.arg_u args 2; is_dgpu := Scan.arg_u args 3;
         asic_family := Scan.arg_u args 5 |} /\
    force_asic (snd r) = 1.
Proof.
  intros Hv Hsc. unfold init_vars_from_env, getenv. rewrite Hv, Hsc.
  cbv zeta.
  destruct (negb (n =? 6)
            || ((63 <? Scan.arg_u args 0) || (255 <? Scan.arg_u args 1)
                || (255 <? Scan.arg_u args 2))
            || (1 <? Scan.arg_u args 3)
            || (CHIP_LAST h <=? Scan.arg_u args 5));
    destruct (Scan.arg_s args 4);
    destruct (w_getenv w "HSAKMT_DEBUG_LEVEL");
    destruct (w_getenv w "HSA_ZFB"); simpl;
    repeat match goal with |- context [if ?c then _ else _] => destruct c end;
    simpl; auto.
Qed.

(** ** The forced-identity override *)

(** X16: For numbers that fit [unsigned int] and a name of 1 to
    63 characters without white space, written as
    [major.minor.step dgpu name family] in HSA_FORCE_ASIC_TYPE (the text
    "10.1.0 1 Navi10 14" is the one for 10, 1, 0, 1, Navi10, 14):
    within the bounds 63, 255, 255, 1 and below [CHIP_LAST] the loading
    succeeds and installs exactly these fields, the name and the flag; with
    any number out of its bound, or with the family left out, it returns
    [HSAKMT_STATUS_ERROR] and leaves [force_asic_entry] and [force_asic] as
    they were, while [force_asic_name] already holds the new name. *)
Theorem force_asic_override
        (h : Header) (s : State) (ma mi st dg : Z) (name : string) (fa : Z) :
  fits_uint ma -> fits_uint mi -> fits_uint st -> fits_uint dg ->
  name_ok name -> fits_uint fa ->
  override_string 10 1 0 1 "Navi10" 14 = "10.1.0 1 Navi10 14"%string /\
  (forall w,
      w_getenv w "HSA_FORCE_ASIC_TYPE"
      = Some (override_string ma mi st dg name fa) ->
      ma <= 63 /\ mi <= 255 /\ st <= 255 /\ dg <= 1 /\ fa < CHIP_LAST h ->
      let r := init_vars_from_env h w s in
      fst r = HSAKMT_STATUS_SUCCESS /\
      force_asic_entry (snd r)
      = {| major := ma; minor := mi; stepping := st; is_dgpu := dg;
           asic_family := fa |} /\
      force_asic_name (snd r) = name /\
      force_asic (snd r) = 1) /\
  (forall w,
      w_getenv w "HSA_FORCE_ASIC_TYPE"
      = Some (override_string ma mi st dg name fa) ->
      63 < ma \/ 255 < mi \/ 255 < st \/ 1 < dg \/ CHIP_LAST h <= fa ->
      let r := init_vars_from_env h w s in
      fst r = HSAKMT_STATUS_ERROR /\
      force_asic_entry (snd r) = force_asic_entry s /\
      force_asic (snd r) = force_asic s /\
      force_asic_name (snd r) = name) /\
  (forall w,
      w_getenv w "HSA_FORCE_ASIC_TYPE"
      = Some (five_field_string ma mi st dg name) ->
      let r := init_vars_from_env h w s in
      fst r = HSAKMT_STATUS_ERROR /\
      force_asic_entry (snd r) = force_asic_entry s /\
      force_asic (snd r) = force_asic s /\
      force_asic_name (snd r) = name).
Proof.
  intros Hma Hmi Hst Hdg Hname Hfa.
  split; [reflexivity|].
  split; [|split].
  - intros w Hv (B1 & B2 & B3 & B4 & B5).
    pose proof (init_vars_from_env_override h w s _ _ _ Hv
                  (sscanf_override_string ma mi st dg name fa
                     Hma Hmi Hst Hdg Hname Hfa)) as H.
    cbv zeta in H. cbn [Scan.arg_u Scan.arg_s nth_error] in H.
    destruct H as [Hn H].
    destruct (Z.ltb_spec 63 ma); [lia|].
    destruct (Z.ltb_spec 255 mi); [lia|].
    destruct (Z.ltb_spec 255 st); [lia|].
    destruct (Z.ltb_spec 1 dg); [lia|].
    destruct (Z.leb_spec (CHIP_LAST h) fa); [lia|].
    simpl in H. cbv zeta. tauto.
  - intros w Hv B.
    pose proof (init_vars_from_env_override h w s _ _ _ Hv
                  (sscanf_override_string ma mi st dg name fa
                     Hma Hmi Hst Hdg Hname Hfa)) as H.
    cbv zeta in H. cbn [Scan.arg_u Scan.arg_s nth_error] in H.
    destruct H as [Hn H].
    assert (E : negb (6 =? 6)
                || ((63 <? ma) || (255 <? mi) || (255 <? st))
                || (1 <? dg) || (CHIP_LAST h <=? fa) = true).
    { destruct (Z.ltb_spec 63 ma); [reflexivity|].
      destruct (Z.ltb_spec 255 mi); [reflexivity|].
      destruct (Z.ltb_spec 255 st); [reflexivity|].
      destruct (Z.ltb_spec 1 dg); [reflexivity|].
      destruct (Z.leb_spec (CHIP_LAST h) fa); [reflexivity|]. lia. }
    rewrite E in H. cbv zeta. tauto.
  - intros w Hv.
    pose proof (init_vars_from_env_override h w s _ _ _ Hv
                  (sscanf_five_field_string ma mi st dg name
                     Hma Hmi Hst Hdg Hname)) as H.
    cbv zeta in H. cbn [Scan.arg_u Scan.arg_s nth_error] in H.
    destruct H as [Hn H]. simpl in H. cbv zeta. tauto.
Qed.

Lemma fits_uint_small (n : Z) : 0 <= n < 256 -> fits_uint n.
Proof. unfold fits_uint, UINT_MOD. lia. Qed.

Lemma name_ok_Navi10 : name_ok "Navi10".
Proof.
  split; [discriminate|]. split; [reflexivity|]. simpl. lia.
Qed.

Lemma force_asic_override_witness :
  let r := init_vars_from_env example_header
             (world_force_asic "10.1.0 1 Navi10 14") initial_state in
  fits_uint 10 /\ fits_uint 1 /\ fits_uint 0 /\ fits_uint 14 /\
  name_ok "Navi10" /\
  fst r = HSAKMT_STATUS_SUCCESS /\
  force_asic_entry (snd r)
  = {| major := 10; minor := 1; stepping := 0; is_dgpu := 1;
       asic_family := 14 |} /\
  force_asic_name (snd r) = "Navi10"%string /\
  force_asic (snd r) = 1.
Proof.
  cbv zeta.
  assert (F10 : fits_uint 10) by (apply fits_uint_small; lia).
  assert (F1 : fits_uint 1) by (apply fits_uint_small; lia).
  assert (F0 : fits_uint 0) by (apply fits_uint_small; lia).
  assert (F14 : fits_uint 14) by (apply fits_uint_small; lia).
  destruct (force_asic_override example_header initial_state
              10 1 0 1 "Navi10" 14 F10 F1 F0 F1 name_ok_Navi10 F14)
    as (_ & Hok & _).
  specialize (Hok (world_force_asic "10.1.0 1 Navi10 14") eq_refl).
  split; [exact F10|]. split; [exact F1|]. split; [exact F0|].
  split; [exact F14|]. split; [exact name_ok_Navi10|].
  apply Hok. simpl. lia.
Defined.

(** C6 (the code departs from the claim): a loading that rejects the
    override returns [HSAKMT_STATUS_ERROR] and leaves [force_asic_entry] and
    [force_asic] as they were, but not the rest of the configuration: the
    debug level has been set anew from HSAKMT_DEBUG_LEVEL, the
    zero-frame-buffer flag from HSA_ZFB when that is set, and
    [force_asic_name] holds the name that [sscanf] read whenever it got as
    far as the name. *)
Theorem rejected_override_is_not_atomic
        (h : Header) (w : World) (s : State) (v : string) :
  w_getenv w "HSA_FORCE_ASIC_TYPE" = Some v ->
  fst (init_vars_from_env h w s) <> HSAKMT_STATUS_SUCCESS ->
  let r := init_vars_from_env h w s in
  fst r = HSAKMT_STATUS_ERROR /\
  force_asic_entry (snd r) = force_asic_entry s /\
  force_asic (snd r) = force_asic s /\
  force_asic_name (snd r)
  = match Scan.arg_s (snd (Scan.sscanf v force_asic_format)) 4 with
    | Some name => name
    | None => force_asic_name s
    end /\
  hsakmt_debug_level (snd r)
  = match w_getenv w "HSAKMT_DEBUG_LEVEL" with
    | Some d =>
        if (HSAKMT_DEBUG_LEVEL_ERR h <=? Scan.atoi d)
           && (Scan.atoi d <=? HSAKMT_DEBUG_LEVEL_DEBUG h)
        then Scan.atoi d else HSAKMT_DEBUG_LEVEL_DEFAULT h
    | None => HSAKMT_DEBUG_LEVEL_DEFAULT h
    end /\
  zfb_support (snd r)
  = match w_getenv w "HSA_ZFB" with
    | Some z => Scan.atoi z
    | None => zfb_support s
    end.
Proof.
  intros Hv. unfold init_vars_from_env, getenv. rewrite Hv.
  destruct (Scan.sscanf v force_asic_format) as [n args]. cbn [snd].
  destruct (negb (n =? 6)
            || ((63 <? Scan.arg_u args 0) || (255 <? Scan.arg_u args 1)
                || (255 <? Scan.arg_u args 2))
            || (1 <? Scan.arg_u args 3)
            || (CHIP_LAST h <=? Scan.arg_u args 5)).
  - intros _.
    destruct (Scan.arg_s args 4);
      destruct (w_getenv w "HSAKMT_DEBUG_LEVEL") as [d|];
      destruct (w_getenv w "HSA_ZFB"); simpl;
      try (destruct ((HSAKMT_DEBUG_LEVEL_ERR h <=? Scan.atoi d)
                     && (Scan.atoi d <=? HSAKMT_DEBUG_LEVEL_DEBUG h)));
      simpl; auto 10.
  - intros Hs. exfalso. apply Hs.
    destruct (Scan.arg_s args 4);
      destruct (w_getenv w "HSAKMT_DEBUG_LEVEL") as [d|];
      destruct (w_getenv w "HSA_ZFB"); reflexivity.
Qed.

Lemma rejected_override_is_not_atomic_witness :
  let r := init_vars_from_env example_header world_five_fields loaded_state in
  (force_asic loaded_state = 1 /\
   force_asic_entry loaded_state
   = {| major := 10; minor := 1; stepping := 0; is_dgpu := 1;
        asic_family := 14 |} /\
   force_asic_name loaded_state = "Navi10"%string /\
   hsakmt_debug_level loaded_state = 7 /\
   zfb_support loaded_state = 1) /\
  fst r = HSAKMT_STATUS_ERROR /\
  force_asic (snd r) = 1 /\
  force_asic_entry (snd r) = force_asic_entry loaded_state /\
  force_asic_name (snd r) = "Vega10"%string /\
  hsakmt_debug_level (snd r) = -1 /\
  zfb_support (snd r) = 0.
Proof.
  cbv zeta. split; [repeat split|].
  destruct (rejected_override_is_not_atomic example_header world_five_fields
              loaded_state "9.0.0 1 Vega10")
    as (Hr & He & Hf & Hn & Hd & Hz).
  - reflexivity.
  - discriminate.
  - split; [exact Hr|]. split; [exact Hf|]. split; [exact He|].
    split; [exact Hn|]. split; [exact Hd | exact Hz].
Defined.


(** Which world answers decide the end of a first open. *)
Lemma open_first_end_exists h w installed :
  exists e evs, open_first_end h w installed e evs.
Proof.
  destruct (HSAKMT_STATUS_eq_dec (config_status h w) HSAKMT_STATUS_SUCCESS)
    as [Hc|Hc]; [|eexists; eexists; apply EndConfig; exact Hc].
  destruct (Z.eq_dec (w_open w) (-1)) as [Ho|Ho];
    [eexists; eexists; apply EndDevice; assumption|].
  destruct (w_topology w) as [rt n] eqn:Et.
  destruct (HSAKMT_STATUS_eq_dec rt HSAKMT_STATUS_SUCCESS) as [Ht|Ht];
    [subst rt|].
  2:{ eexists; eexists. apply EndStage; [assumption|assumption|].
      eapply TopologyFails; eassumption. }
  destruct (HSAKMT_STATUS_eq_dec (w_fmm_init_process_apertures w n)
              HSAKMT_STATUS_SUCCESS) as [Ha|Ha].
  2:{ eexists; eexists. apply EndStage; [assumption|assumption|].
      eapply AperturesFail; [eassumption|reflexivity|assumption]. }
  destruct (HSAKMT_STATUS_eq_dec (w_init_process_doorbells w n)
              HSAKMT_STATUS_SUCCESS) as [Hd|Hd].
  2:{ eexists; eexists. apply EndStage; [assumption|assumption|].
      eapply DoorbellsFail; [eassumption|assumption|reflexivity|assumption]. }
  eexists; eexists. eapply EndOpened; eassumption.
Qed.

Lemma open_first_early h w s :
  acquired h w = false ->
  let r := open_first h w s in
  fst r = (if status_eqb (config_status h w) HSAKMT_STATUS_SUCCESS
           then HSAKMT_STATUS_KERNEL_IO_CHANNEL_NOT_OPENED
           else config_status h w) /\
  kfd_open_count (snd r) = kfd_open_count s /\
  kfd_fd (snd r) = kfd_fd s /\
  atfork_installed (snd r) = atfork_installed s /\
  parent_pid (snd r) = parent_pid s /\
  hsakmt_forked (snd r) = hsakmt_forked s /\
  trace (snd r)
  = trace s ++ config_events (config_status h w)
      ++ early_failure_events h w.
Proof.
  unfold acquired, early_failure_events. intros Ha.
  pose proof (init_vars_from_env_session h w s) as F.
  unfold open_first. rewrite <- (config_status_eq h w s) in *.
  destruct (init_vars_from_env h w s) as [r0 s1].
  cbn [fst snd] in *. cbv zeta in F.
  destruct F as (Fp & Ff & Fa & Ffd & Fn & _ & _ & Ft).
  unfold open_failed.
  destruct (status_eqb r0 HSAKMT_STATUS_SUCCESS) eqn:E; cbn [negb].
  - simpl in Ha. apply negb_false_iff in Ha. rewrite Ha. simpl.
    rewrite Ft. apply Z.eqb_eq in Ha. rewrite Ha. norm_trace.
    repeat split; auto.
  - simpl. rewrite Ft. norm_trace. repeat split; auto.
Qed.

Lemma open_first_stage_failure_latch h w s e evs :
  config_status h w = HSAKMT_STATUS_SUCCESS ->
  w_open w <> -1 ->
  stage_failure w e evs ->
  atfork_installed (snd (open_first h w s)) = atfork_installed s.
Proof.
  intros Hc Ho Hs.
  pose proof (init_vars_from_env_session h w s) as F.
  unfold open_first. rewrite <- (config_status_eq h w s) in Hc.
  destruct (init_vars_from_env h w s) as [r0 s1].
  simpl in F, Hc. destruct F as (_ & _ & Fa & _).
  subst r0. simpl.
  destruct (Z.eqb_spec (w_open w) (-1)) as [|_]; [contradiction|].
  destruct Hs as [e n Ht He | e n Ht Ha He | e n Ht Ha Hd He];
    rewrite Ht; simpl.
  - apply status_neqb in He. rewrite He. simpl. exact Fa.
  - rewrite Ha. apply status_neqb in He. rewrite He. simpl. exact Fa.
  - rewrite Ha, Hd. simpl. apply status_neqb in He. rewrite He. simpl.
    exact Fa.
Qed.

(** Every first open ends in one of the four ways, with the result and the
    calls of that way. *)
Lemma open_first_ends h w s :
  let r := open_first h w s in
  exists evs,
    open_first_end h w (atfork_installed s) (fst r) evs /\
    trace (snd r) = trace s ++ config_events (config_status h w) ++ evs /\
    parent_pid (snd r) = parent_pid s /\
    hsakmt_forked (snd r) = hsakmt_forked s /\
    (if acquired h w
     then kfd_open_count (snd r) = 1%N /\ kfd_fd (snd r) = w_open w
     else kfd_open_count (snd r) = kfd_open_count s /\
          kfd_fd (snd r) = kfd_fd s) /\
    atfork_installed (snd r)
    = (atfork_installed s || status_eqb (fst r) HSAKMT_STATUS_SUCCESS).
Proof.
  cbv zeta.
  destruct (acquired h w) eqn:Eacq.
  - unfold acquired in Eacq. apply andb_true_iff in Eacq.
    destruct Eacq as [Hc Ho]. apply status_eqb_eq in Hc.
    apply negb_true_iff in Ho. apply Z.eqb_neq in Ho.
    destruct (open_first_end_exists h w (atfork_installed s))
      as (e & evs & Hend).
    destruct Hend as [Hc' | _ Ho' | e evs _ _ Hs | n _ _ Ht Ha Hd];
      [contradiction | contradiction | |].
    + destruct (open_first_stage_failure h w s e evs Hc Ho Hs)
        as (Hr & Hn & Hfd & Hp & Hf & Ht).
      pose proof (open_first_stage_failure_latch h w s e evs Hc Ho Hs) as Hl.
      exists evs. rewrite Hr, Hc.
      split; [apply EndStage; assumption|].
      split; [exact Ht|]. split; [exact Hp|]. split; [exact Hf|].
      split; [auto|]. rewrite Hl.
      assert (He : status_eqb e HSAKMT_STATUS_SUCCESS = false).
      { destruct Hs; apply negb_true_iff; apply status_neqb; assumption. }
      rewrite He, orb_false_r. reflexivity.
    + destruct (open_first_success h w s n Hc Ho Ht Ha Hd)
        as (Hr & Hn & Hfd & Hl & Hp & Hf & Htr).
      exists (acquire_events w n (atfork_installed s)). rewrite Hr, Hc.
      split; [apply EndOpened; assumption|].
      split; [exact Htr|]. split; [exact Hp|]. split; [exact Hf|].
      split; [auto|]. rewrite Hl, status_eqb_refl, orb_true_r. reflexivity.
  - destruct (open_first_early h w s Eacq)
      as (Hr & Hn & Hfd & Hl & Hp & Hf & Htr).
    exists (early_failure_events h w). rewrite Hr.
    split.
    { unfold acquired in Eacq.
      destruct (status_eqb (config_status h w) HSAKMT_STATUS_SUCCESS) eqn:E.
      - simpl in Eacq. apply negb_false_iff, Z.eqb_eq in Eacq.
        apply status_eqb_eq in E. apply EndDevice; assumption.
      - apply EndConfig. intros C. apply status_eqb_eq in C. congruence. }
    split; [exact Htr|]. split; [exact Hp|]. split; [exact Hf|].
    split; [auto|]. rewrite Hl.
    destruct (status_eqb (config_status h w) HSAKMT_STATUS_SUCCESS) eqn:E.
    + change (status_eqb HSAKMT_STATUS_KERNEL_IO_CHANNEL_NOT_OPENED
                HSAKMT_STATUS_SUCCESS) with false.
      rewrite orb_false_r. reflexivity.
    + rewrite E, orb_false_r. reflexivity.
Qed.


(** The state in which [hsaKmtOpenKFD] tests [kfd_open_count], for either
    answer of [is_forked_child]. *)
Lemma open_cases h w s :
  (fork_detected w s /\
   hsaKmtOpenKFD h w s = open_first h w (reset_state s)) \/
  (hsakmt_forked s = false /\ kfd_open_count s = 0%N /\
   hsaKmtOpenKFD h w s = open_first h w (entered w s)) \/
  (hsakmt_forked s = false /\ kfd_open_count s <> 0%N /\
   hsaKmtOpenKFD h w s
   = (HSAKMT_STATUS_KERNEL_ALREADY_OPENED,
      emit EvMutexUnlock
        (set_kfd_open_count (kfd_open_count s + 1)%N (entered w s)))).
Proof.
  destruct (fork_detected_dec w s) as [Hd|[Hf Hp]].
  - left. split; [exact Hd | apply open_after_fork; exact Hd].
  - right. destruct (N.eq_dec (kfd_open_count s) 0) as [Hc|Hc].
    + left. split; [exact Hf|]. split; [exact Hc|].
      apply open_no_fork_first; assumption.
    + right. split; [exact Hf|]. split; [exact Hc|].
      apply open_no_fork_again; assumption.
Qed.

Lemma no_mutex_app (l1 l2 : list event) :
  no_mutex (l1 ++ l2) = no_mutex l1 && no_mutex l2.
Proof. unfold no_mutex. apply forallb_app. Qed.

Lemma open_first_end_unlocks h w installed e evs :
  open_first_end h w installed e evs ->
  exists mid, evs = mid ++ [EvMutexUnlock] /\ no_mutex mid = true.
Proof.
  intros H. destruct H as [Hc | Hc Ho | e evs Hc Ho Hs | n Hc Ho Ht Ha Hd].
  - unfold early_failure_events.
    destruct (status_eqb _ _);
      [exists [EvOpen kfd_device_name (w_open w)] | exists []];
      split; reflexivity.
  - unfold early_failure_events.
    destruct (status_eqb _ _);
      [exists [EvOpen kfd_device_name (w_open w)] | exists []];
      split; reflexivity.
  - destruct Hs;
      match goal with |- exists mid, ?l = _ /\ _ => exists (removelast l) end;
      split; reflexivity.
  - unfold acquire_events.
    destruct (status_eqb (w_init_device_debugging_memory w n) _);
      destruct installed; simpl;
      match goal with |- exists mid, ?l = _ /\ _ => exists (removelast l) end;
      split; reflexivity.
Qed.

Lemma config_events_no_mutex r : no_mutex (config_events r) = true.
Proof. unfold config_events. destruct (status_eqb _ _); reflexivity. Qed.

Lemma reset_events_shape s :
  exists pre, reset_events s = EvMutexLock :: pre /\ no_mutex pre = true.
Proof.
  unfold reset_events. eexists. split; [reflexivity|].
  destruct (hsakmt_forked s); destruct (kfd_fd s =? 0); reflexivity.
Qed.

Lemma close_not_open_is_error_frame (s : State) :
  kfd_open_count s = 0%N ->
  hsaKmtCloseKFD s
  = (HSAKMT_STATUS_KERNEL_IO_CHANNEL_NOT_OPENED,
     emit EvMutexUnlock (emit EvMutexLock s)) /\
  events_since s (snd (hsaKmtCloseKFD s)) = [EvMutexLock; EvMutexUnlock].
Proof.
  intros H. unfold hsaKmtCloseKFD. simpl. rewrite H. simpl.
  split; [reflexivity|].
  apply events_since_app. simpl. norm_trace. reflexivity.
Qed.

(** ** The lock *)

(** X1: Every call of [hsaKmtOpenKFD] and of [hsaKmtCloseKFD] takes the mutex
    first and releases it last, once each, on every path, also when it
    fails; nothing is done outside the lock. *)
Theorem entry_points_hold_the_lock (h : Header) (w : World) (s : State) :
  (exists mid,
      events_since s (snd (hsaKmtOpenKFD h w s))
      = EvMutexLock :: mid ++ [EvMutexUnlock] /\ no_mutex mid = true) /\
  (exists mid,
      events_since s (snd (hsaKmtCloseKFD s))
      = EvMutexLock :: mid ++ [EvMutexUnlock] /\ no_mutex mid = true).
Proof.
  split.
  - assert (Hfirst : forall s1 pre,
               trace s1 = trace s ++ EvMutexLock :: pre ->
               no_mutex pre = true ->
               exists mid,
                 events_since s (snd (open_first h w s1))
                 = EvMutexLock :: mid ++ [EvMutexUnlock] /\
                 no_mutex mid = true).
    { intros s1 pre Hpre Hnm.
      destruct (open_first_ends h w s1) as (evs & Hend & Htr & _).
      destruct (open_first_end_unlocks _ _ _ _ _ Hend) as (mid & -> & Hmid).
      exists (pre ++ config_events (config_status h w) ++ mid). split.
      - apply events_since_app. rewrite Htr, Hpre. norm_trace. reflexivity.
      - rewrite !no_mutex_app, Hnm, config_events_no_mutex, Hmid.
        reflexivity. }
    destruct (open_cases h w s) as [(Hd & E)|[(Hf & Hc & E)|(Hf & Hc & E)]];
      rewrite E.
    + destruct (reset_state_session s) as (_ & _ & _ & _ & _ & _ & Htr).
      destruct (reset_events_shape s) as (pre & Hpre & Hnm).
      rewrite Hpre in Htr. exact (Hfirst _ _ Htr Hnm).
    + apply (Hfirst _ [EvGetpid]); [|reflexivity].
      simpl. norm_trace. reflexivity.
    + exists [EvGetpid]. split; [|reflexivity].
      apply events_since_app. simpl. norm_trace. reflexivity.
  - destruct (N.eq_dec (kfd_open_count s) 0) as [Hc|Hc].
    + exists []. split; [|reflexivity].
      destruct (close_not_open_is_error_frame s Hc) as (_ & Hev).
      exact Hev.
    + destruct (N.eq_dec (kfd_open_count s) 1) as [H1|H1].
      * destruct (close_last_trace s H1) as (_ & _ & _ & Htr).
        exists ([EvDestroyCounterProps; EvDestroyDeviceDebuggingMemory;
                 EvDestroyProcessDoorbells; EvFmmDestroyProcessApertures]
                  ++ (if kfd_fd s =? 0 then [] else [EvClose (kfd_fd s)])).
        split.
        -- apply events_since_app. rewrite Htr. unfold last_close_events.
           norm_trace. reflexivity.
        -- destruct (kfd_fd s =? 0); reflexivity.
      * rewrite close_not_last by lia. exists []. split; [|reflexivity].
        apply events_since_app. simpl. norm_trace. reflexivity.
Qed.


Lemma atfork_registrations_app (t l : list event) :
  atfork_registrations (t ++ l)
  = (atfork_registrations t + atfork_registrations l)%nat.
Proof.
  unfold atfork_registrations. rewrite filter_app, length_app. reflexivity.
Qed.

Lemma open_first_end_registrations h w installed e evs :
  open_first_end h w installed e evs ->
  atfork_registrations evs
  = if negb installed && status_eqb e HSAKMT_STATUS_SUCCESS
    then 1%nat else 0%nat.
Proof.
  intros H. destruct H as [Hc | Hc Ho | e evs Hc Ho Hs | n Hc Ho Ht Ha Hd].
  - apply status_neqb, negb_true_iff in Hc. rewrite Hc, andb_false_r.
    unfold early_failure_events. rewrite Hc. reflexivity.
  - change (status_eqb HSAKMT_STATUS_KERNEL_IO_CHANNEL_NOT_OPENED
              HSAKMT_STATUS_SUCCESS) with false. rewrite andb_false_r.
    unfold early_failure_events. destruct (status_eqb _ _); reflexivity.
  - assert (He : status_eqb e HSAKMT_STATUS_SUCCESS = false).
    { destruct Hs; apply negb_true_iff; apply status_neqb; assumption. }
    rewrite He, andb_false_r. destruct Hs; reflexivity.
  - rewrite status_eqb_refl, andb_true_r. unfold acquire_events.
    destruct (status_eqb (w_init_device_debugging_memory w n) _);
      destruct installed; reflexivity.
Qed.

Lemma open_first_keeps_latch h w s :
  latch_invariant s -> latch_invariant (snd (open_first h w s)).
Proof.
  unfold latch_invariant. intros Hs.
  destruct (open_first_ends h w s) as (evs & Hend & Htr & _ & _ & _ & Hl).
  rewrite Htr, Hl, !atfork_registrations_app, Hs.
  rewrite (open_first_end_registrations _ _ _ _ _ Hend).
  assert (Hc : forall r, atfork_registrations (config_events r) = 0%nat).
  { intros r. unfold config_events.
    destruct (status_eqb r HSAKMT_STATUS_SUCCESS); reflexivity. }
  rewrite Hc.
  destruct (atfork_installed s);
    destruct (status_eqb (fst (open_first h w s)) HSAKMT_STATUS_SUCCESS);
    reflexivity.
Qed.

Lemma latch_invariant_trace s s' l :
  trace s' = trace s ++ l ->
  atfork_registrations l = 0%nat ->
  atfork_installed s' = atfork_installed s ->
  latch_invariant s -> latch_invariant s'.
Proof.
  unfold latch_invariant. intros Ht Hl Ha Hs.
  rewrite Ht, Ha, atfork_registrations_app, Hs, Hl. lia.
Qed.

Lemma step_keeps_latch h s c :
  latch_invariant s -> latch_invariant (step h s c).
Proof.
  intros Hs. destruct c as [w| |]; simpl.
  - destruct (open_cases h w s) as [(Hd & E)|[(Hf & Hc & E)|(Hf & Hc & E)]];
      rewrite E.
    + apply open_first_keeps_latch.
      destruct (reset_state_session s) as (_ & _ & _ & _ & Ha & _ & Htr).
      apply (latch_invariant_trace s _ _ Htr); [|exact Ha|exact Hs].
      unfold reset_events.
      destruct (hsakmt_forked s); destruct (kfd_fd s =? 0); reflexivity.
    + apply open_first_keeps_latch.
      apply (latch_invariant_trace s _ [EvMutexLock; EvGetpid]);
        [simpl; norm_trace| | |]; auto.
    + apply (latch_invariant_trace s _ [EvMutexLock; EvGetpid; EvMutexUnlock]);
        [simpl; norm_trace| | |]; auto.
  - destruct (N.eq_dec (kfd_open_count s) 0) as [Hc|Hc].
    + destruct (close_not_open_is_error_frame s Hc) as (E & _). rewrite E.
      apply (latch_invariant_trace s _ [EvMutexLock; EvMutexUnlock]);
        [simpl; norm_trace| | |]; auto.
    + destruct (N.eq_dec (kfd_open_count s) 1) as [H1|H1].
      * pose proof (close_last s H1) as E.
        destruct (close_last_trace s H1) as (_ & _ & _ & Htr).
        apply (latch_invariant_trace s _ _ Htr); [| |exact Hs].
        -- unfold last_close_events. destruct (kfd_fd s =? 0); reflexivity.
        -- rewrite E. unfold close_kfd_fd. simpl.
           destruct (kfd_fd s =? 0); reflexivity.
      * rewrite close_not_last by lia.
        apply (latch_invariant_trace s _ [EvMutexLock; EvMutexUnlock]);
          [simpl; norm_trace| | |]; auto.
  - apply (latch_invariant_trace s _ [EvMutexInit]); auto.
Qed.

Lemma run_keeps_latch h cs : forall s,
  latch_invariant s -> latch_invariant (run h cs s).
Proof.
  induction cs as [|c cs IH]; intros s Hs; [exact Hs|].
  simpl. apply IH. apply step_keeps_latch. exact Hs.
Qed.

(** ** The fork handlers *)

(** X2: Whatever opens, closes and child-side fork callbacks follow the
    initial state, however they end, [pthread_atfork] is called at most once:
    not at all while the latch is clear, once when it is set. *)
Theorem atfork_registered_at_most_once (h : Header) (cs : list call) :
  atfork_registrations (trace (run h cs initial_state))
  = (if atfork_installed (run h cs initial_state) then 1%nat else 0%nat) /\
  (atfork_registrations (trace (run h cs initial_state)) <= 1)%nat.
Proof.
  pose proof (run_keeps_latch h cs initial_state eq_refl) as H.
  unfold latch_invariant in H. split; [exact H|].
  rewrite H. destruct (atfork_installed _); lia.
Qed.

(** ** The marker of a closed session *)

Lemma step_keeps_marker h s c :
  match c with CallOpen w => w_open w <> 0 | _ => True end ->
  marker_invariant s -> marker_invariant (step h s c).
Proof.
  unfold marker_invariant. intros Hw Hs. destruct c as [w| |]; simpl.
  - assert (Hfirst : forall s1,
               (kfd_open_count s1 = 0%N <-> kfd_fd s1 = 0) ->
               kfd_open_count (snd (open_first h w s1)) = 0%N <->
               kfd_fd (snd (open_first h w s1)) = 0).
    { intros s1 H1.
      destruct (open_first_ends h w s1) as (evs & _ & _ & _ & _ & Hcf & _).
      destruct (acquired h w); destruct Hcf as [Hn Hfd]; rewrite Hn, Hfd.
      - split; [discriminate | intros; contradiction].
      - exact H1. }
    destruct (open_cases h w s) as [(Hd & E)|[(Hf & Hc & E)|(Hf & Hc & E)]];
      rewrite E.
    + apply Hfirst.
      destruct (reset_state_session s) as (Hn & Hfd & _). rewrite Hn, Hfd.
      tauto.
    + apply Hfirst. simpl. exact Hs.
    + simpl. split; [lia|]. intros Hfd. apply Hs in Hfd. contradiction.
  - destruct (N.eq_dec (kfd_open_count s) 0) as [Hc|Hc].
    + destruct (close_not_open_is_error_frame s Hc) as (E & _). rewrite E.
      simpl. exact Hs.
    + destruct (N.eq_dec (kfd_open_count s) 1) as [H1|H1].
      * destruct (close_last_trace s H1) as (_ & Hn & Hfd & _).
        rewrite Hn, Hfd. tauto.
      * rewrite close_not_last by lia. simpl. split; [lia|].
        intros Hfd. apply Hs in Hfd. contradiction.
  - simpl. exact Hs.
Qed.

(** X3: In every state reached from the initial one by opens in which the
    device never opens as descriptor 0, closes and child-side fork
    callbacks, [kfd_fd] is 0 exactly when [kfd_open_count] is 0. *)
Theorem marker_agrees_with_count (h : Header) (cs : list call) :
  opens_nonzero cs ->
  marker_invariant (run h cs initial_state).
Proof.
  assert (H : forall s, opens_nonzero cs -> marker_invariant s ->
                        marker_invariant (run h cs s)).
  { induction cs as [|c cs IH]; intros s Hcs Hs; [exact Hs|].
    inversion Hcs as [|? ? Hc Hcs']; subst. simpl. apply IH; [exact Hcs'|].
    apply step_keeps_marker; assumption. }
  intros Hcs. apply H; [exact Hcs|]. unfold marker_invariant. simpl. tauto.
Qed.

Lemma marker_agrees_with_count_witness :
  let cs := [CallOpen (world_ok 100 3); CallOpen (world_topology_fails 100 3);
             CallClose; CallChildFork; CallOpen (world_doorbells_fail 200 4)] in
  opens_nonzero cs /\
  marker_invariant (run example_header cs initial_state) /\
  kfd_open_count (run example_header cs initial_state) = 1%N.
Proof.
  cbv zeta.
  assert (H : opens_nonzero
                [CallOpen (world_ok 100 3);
                 CallOpen (world_topology_fails 100 3);
                 CallClose; CallChildFork;
                 CallOpen (world_doorbells_fail 200 4)]).
  { repeat constructor; simpl; lia. }
  split; [exact H|].
  split; [exact (marker_agrees_with_count example_header _ H) | reflexivity].
Defined.


(** ** More closes than opens *)

Lemma close_times_not_open : forall m s,
  kfd_open_count s = 0%N ->
  fst (close_times m s) = repeat HSAKMT_STATUS_KERNEL_IO_CHANNEL_NOT_OPENED m /\
  kfd_open_count (snd (close_times m s)) = 0%N /\
  kfd_fd (snd (close_times m s)) = kfd_fd s /\
  device_closes (trace (snd (close_times m s))) = device_closes (trace s).
Proof.
  induction m as [|m IH]; intros s Hc; [simpl; auto|].
  simpl. destruct (close_not_open_is_error_frame s Hc) as (E & _).
  rewrite E.
  specialize (IH (emit EvMutexUnlock (emit EvMutexLock s)) Hc).
  destruct (close_times m _) as [rs s2]. simpl in *.
  destruct IH as (Hr & Hn & Hfd & Hcl). rewrite Hr, Hcl.
  repeat split; auto.
  unfold device_closes. rewrite !filter_app, !length_app. simpl. lia.
Qed.

(** X4: With [n] references held, the first [n] of [n + m] closes return
    [HSAKMT_STATUS_SUCCESS] and the other [m] return
    [HSAKMT_STATUS_KERNEL_IO_CHANNEL_NOT_OPENED]; the count ends at 0 and
    never wraps below it, and the descriptor is closed at most once. *)
Theorem closes_beyond_count_fail (n m : nat) : forall s : State,
  kfd_open_count s = N.of_nat n ->
  let r := close_times (n + m) s in
  fst r = repeat HSAKMT_STATUS_SUCCESS n
            ++ repeat HSAKMT_STATUS_KERNEL_IO_CHANNEL_NOT_OPENED m /\
  kfd_open_count (snd r) = 0%N /\
  (device_closes (trace (snd r)) <= device_closes (trace s) + 1)%nat.
Proof.
  induction n as [|n IH]; intros s Hc; cbv zeta.
  - destruct (close_times_not_open m s Hc) as (Hr & Hn & _ & Hcl).
    simpl. rewrite Hr, Hcl. repeat split; auto. lia.
  - change (close_times (S n + m) s)
      with (let (r, s1) := hsaKmtCloseKFD s in
            let (rs, s2) := close_times (n + m) s1 in (r :: rs, s2)).
    destruct n as [|n].
    + destruct (close_last_trace s Hc) as (Hr & Hn & _ & Htr).
      destruct (hsaKmtCloseKFD s) as [r s1]. simpl in Hr, Hn, Htr. subst r.
      destruct (close_times_not_open m s1 Hn) as (Hrs & Hn2 & _ & Hcl).
      simpl. destruct (close_times m s1) as [rs s2]. simpl in *.
      rewrite Hrs, Hcl, Htr. split; [reflexivity|]. split; [exact Hn2|].
      unfold device_closes, last_close_events.
      rewrite !filter_app, !length_app.
      destruct (kfd_fd s =? 0); simpl; lia.
    + rewrite close_not_last by lia.
      specialize (IH (emit EvMutexUnlock
                        (set_kfd_open_count (kfd_open_count s - 1)%N
                           (emit EvMutexLock s)))).
      cbv zeta in IH.
      destruct (close_times (S n + m) _) as [rs s2]. simpl in *.
      destruct IH as (Hrs & Hn2 & Hcl); [lia|].
      rewrite Hrs. split; [reflexivity|]. split; [exact Hn2|].
      unfold device_closes in *. rewrite !filter_app, !length_app in Hcl.
      simpl in Hcl. lia.
Qed.

Lemma closes_beyond_count_fail_witness :
  let s := snd (open_all example_header [world_ok 100 3; world_ok 100 3]
                  initial_state) in
  kfd_open_count s = 2%N /\
  fst (close_times 4 s)
  = [HSAKMT_STATUS_SUCCESS; HSAKMT_STATUS_SUCCESS;
     HSAKMT_STATUS_KERNEL_IO_CHANNEL_NOT_OPENED;
     HSAKMT_STATUS_KERNEL_IO_CHANNEL_NOT_OPENED].
Proof.
  cbv zeta. split; [reflexivity|].
  exact (proj1 (closes_beyond_count_fail 2 2
                  (snd (open_all example_header
                          [world_ok 100 3; world_ok 100 3] initial_state))
                  eq_refl)).
Defined.

(** ** Failures before the device is open *)

Lemma config_status_values h w :
  config_status h w = HSAKMT_STATUS_SUCCESS \/
  config_status h w = HSAKMT_STATUS_ERROR.
Proof.
  unfold config_status, init_vars_from_env, getenv.
  destruct (w_getenv w "HSA_FORCE_ASIC_TYPE") as [v|]; [|left; reflexivity].
  destruct (Scan.sscanf v force_asic_format) as [n args].
  match goal with |- context [if ?c then _ else _] => destruct c end;
    [right | left]; reflexivity.
Qed.

(** X5: A first open that fails while loading the configuration or opening the
    device returns [HSAKMT_STATUS_ERROR], resp.
    [HSAKMT_STATUS_KERNEL_IO_CHANNEL_NOT_OPENED], and leaves the session
    closed: [kfd_open_count] stays 0, [kfd_fd] keeps its value, no stage is
    run and nothing is closed; with a rejected configuration the device is
    not even tried. *)
Theorem open_fails_before_device
        (h : Header) (w : World) (s : State) :
  kfd_open_count s = 0%N ->
  hsakmt_forked s = false ->
  parent_pid s = -1 \/ parent_pid s = w_getpid w ->
  config_status h w <> HSAKMT_STATUS_SUCCESS \/ w_open w = -1 ->
  let r := hsaKmtOpenKFD h w s in
  let evs := events_since s (snd r) in
  fst r = (if status_eqb (config_status h w) HSAKMT_STATUS_SUCCESS
           then HSAKMT_STATUS_KERNEL_IO_CHANNEL_NOT_OPENED
           else HSAKMT_STATUS_ERROR) /\
  kfd_open_count (snd r) = 0%N /\
  kfd_fd (snd r) = kfd_fd s /\
  subsystem_inits evs = [] /\
  subsystem_teardowns evs = [] /\
  device_opens evs = 0%nat /\
  device_closes evs = 0%nat /\
  (config_status h w <> HSAKMT_STATUS_SUCCESS ->
   filter (fun e => match e with EvOpen _ _ => true | _ => false end) evs
   = []).
Proof.
  intros Hc Hf Hp Hfail.
  assert (Ha : acquired h w = false).
  { unfold acquired. destruct Hfail as [Hn|Ho].
    - apply status_neqb, negb_true_iff in Hn. rewrite Hn. reflexivity.
    - rewrite Ho. simpl. apply andb_false_r. }
  rewrite open_no_fork_first by assumption.
  destruct (open_first_early h w (entered w s) Ha)
    as (Hr & Hn & Hfd & _ & _ & _ & Htr).
  cbv zeta.
  rewrite (events_since_app s _
             ([EvMutexLock; EvGetpid] ++ config_events (config_status h w)
                ++ early_failure_events h w))
    by (rewrite Htr; simpl; norm_trace; reflexivity).
  rewrite Hr, Hn, Hfd. simpl kfd_open_count. simpl kfd_fd.
  unfold config_events, early_failure_events, acquired in *.
  destruct (config_status_values h w) as [E|E]; rewrite E in *; simpl in *.
  - destruct Hfail as [Hx|Ho]; [contradiction|].
    rewrite Ho. repeat split; auto. intros; contradiction.
  - repeat split; auto.
Qed.

Lemma open_fails_before_device_witness :
  let w := world_ok 100 (-1) in
  let r := hsaKmtOpenKFD example_header w initial_state in
  w_open w = -1 /\
  fst r = HSAKMT_STATUS_KERNEL_IO_CHANNEL_NOT_OPENED /\
  kfd_open_count (snd r) = 0%N.
Proof.
  cbv zeta. split; [reflexivity|].
  destruct (open_fails_before_device example_header (world_ok 100 (-1))
              initial_state) as (Hr & Hn & _).
  - reflexivity.
  - reflexivity.
  - left; reflexivity.
  - right; reflexivity.
  - split; [exact Hr | exact Hn].
Defined.


(** ** Identity after a reset *)

(** X6: The open that handles a fork leaves no identity recorded:
    [clear_after_fork] sets [parent_pid] to -1 after [is_forked_child] ran,
    and nothing records the live identity later in that call.  So the next
    open, as long as the child-side callback has not run again, sees no fork
    whatever process calls it: after a successful reopen it only adds a
    reference. *)
Theorem no_identity_after_reopen
        (h : Header) (w w' : World) (s : State) :
  fork_detected w s ->
  fst (hsaKmtOpenKFD h w s) = HSAKMT_STATUS_SUCCESS ->
  let s1 := snd (hsaKmtOpenKFD h w s) in
  let r := hsaKmtOpenKFD h w' s1 in
  parent_pid s1 = -1 /\
  hsakmt_forked s1 = false /\
  fst (is_forked_child w' s1) = false /\
  fst r = HSAKMT_STATUS_KERNEL_ALREADY_OPENED /\
  kfd_open_count (snd r) = 2%N /\
  parent_pid (snd r) = w_getpid w'.
Proof.
  intros Hd. rewrite open_after_fork by exact Hd. intros Hs. cbv zeta.
  destruct (reset_state_session s) as (_ & _ & Hf & Hp & _).
  destruct (open_first_success_inv h w _ Hs) as (Hcfg & Ho & Ht & Ha & Hdb).
  destruct (w_topology w) as [rt n] eqn:Et. simpl in Ht, Ha, Hdb. subst rt.
  destruct (open_first_success h w (reset_state s) n Hcfg Ho Et Ha Hdb)
    as (_ & Hn & _ & _ & Hp1 & Hf1 & _).
  rewrite Hp in Hp1. rewrite Hf in Hf1.
  split; [exact Hp1|]. split; [exact Hf1|].
  split.
  { rewrite is_forked_child_no_fork by auto. reflexivity. }
  rewrite open_no_fork_again by (auto; rewrite Hn; discriminate).
  simpl. rewrite Hn. auto.
Qed.

Lemma no_identity_after_reopen_witness :
  let s1 := snd (hsaKmtOpenKFD example_header (world_ok 200 4)
                   two_references) in
  fork_detected (world_ok 200 4) two_references /\
  parent_pid s1 = -1 /\
  fst (hsaKmtOpenKFD example_header (world_ok 300 4) s1)
  = HSAKMT_STATUS_KERNEL_ALREADY_OPENED.
Proof.
  cbv zeta.
  assert (Hd : fork_detected (world_ok 200 4) two_references).
  { right. split; simpl; lia. }
  destruct (no_identity_after_reopen example_header (world_ok 200 4)
              (world_ok 300 4) two_references Hd eq_refl)
    as (Hp & _ & _ & Hr & _).
  split; [exact Hd|]. split; [exact Hp | exact Hr].
Defined.

(** ** Closing in a forked child *)

(** X7: [hsaKmtCloseKFD] has no fork check: it never calls [getpid] or a
    [clear_] function, leaves the forked flag, the recorded identity, the
    latch and the configuration alone, and does to a session whose flag is
    set what it does to the same session with the flag clear. *)
Theorem close_has_no_fork_check (s : State) (b : bool) :
  let r := hsaKmtCloseKFD s in
  hsakmt_forked (snd r) = hsakmt_forked s /\
  parent_pid (snd r) = parent_pid s /\
  atfork_installed (snd r) = atfork_installed s /\
  same_config s (snd r) /\
  filter (fun e => match e with
                   | EvGetpid | EvClearProcessDoorbells | EvClearEventsPage
                   | EvFmmClearAllMem => true
                   | _ => false
                   end) (events_since s (snd r)) = [] /\
  hsaKmtCloseKFD (set_hsakmt_forked b s)
  = (fst r, set_hsakmt_forked b (snd r)).
Proof.
  cbv zeta. unfold same_config.
  destruct (N.eq_dec (kfd_open_count s) 0) as [Hc|Hc].
  - destruct (close_not_open_is_error_frame s Hc) as (E & Hev).
    rewrite Hev, E. simpl. repeat split.
    unfold hsaKmtCloseKFD. simpl. rewrite Hc. reflexivity.
  - destruct (N.eq_dec (kfd_open_count s) 1) as [H1|H1].
    + destruct (close_last_trace s H1) as (_ & _ & _ & Htr).
      apply events_since_app in Htr. rewrite Htr.
      rewrite (close_last s H1).
      rewrite (close_last (set_hsakmt_forked b s) H1).
      unfold close_kfd_fd, last_close_events. simpl.
      destruct (kfd_fd s =? 0); simpl; repeat split.
    + rewrite (events_since_app s _ [EvMutexLock; EvMutexUnlock])
        by (rewrite close_not_last by lia; simpl; norm_trace; reflexivity).
      rewrite close_not_last by lia.
      rewrite (close_not_last (set_hsakmt_forked b s)) by (simpl; lia).
      simpl. repeat split.
Qed.

(** ** The page size *)

Lemma ffs_from_power (fuel : nat) : forall i k,
  0 <= i <= k -> k < i + Z.of_nat fuel ->
  ffs_from fuel i (2 ^ k) = k + 1.
Proof.
  induction fuel as [|fuel IH]; intros i k Hi Hk; [lia|].
  cbn [ffs_from].
  destruct (Z.eq_dec i k) as [->|Hne].
  - rewrite Z.pow2_bits_true by lia. reflexivity.
  - rewrite Z.pow2_bits_false by lia. apply IH; lia.
Qed.

(** X8: When [sysconf] reports a page size [2 ^ k] that an [int] holds,
    [init_page_size] stores it with [PAGE_SHIFT = k], so that
    [1 << PAGE_SHIFT] is the page size; it changes nothing else. *)
Theorem init_page_size_power_of_two (w : World) (s : State) (k : Z) :
  0 <= k < 31 ->
  w_sysconf_pagesize w = 2 ^ k ->
  let s' := init_page_size w s in
  PAGE_SIZE s' = 2 ^ k /\
  PAGE_SHIFT s' = k /\
  Z.shiftl 1 (PAGE_SHIFT s') = PAGE_SIZE s' /\
  s' = set_page (2 ^ k) k (emit EvSysconfPagesize s).
Proof.
  intros Hk Hw. unfold init_page_size. rewrite Hw. cbv zeta.
  assert (Hlt : 2 ^ k < 2 ^ 31) by (apply Z.pow_lt_mono_r; lia).
  assert (Hpos : 0 < 2 ^ k) by (apply Z.pow_pos_nonneg; lia).
  assert (E : to_int32 (2 ^ k) = 2 ^ k).
  { unfold to_int32, UINT_MOD.
    assert (2 ^ 31 < 2 ^ 32) by (apply Z.pow_lt_mono_r; lia).
    rewrite Z.mod_small by lia.
    destruct (Z.ltb_spec (2 ^ k) (2 ^ 31)); [reflexivity | lia]. }
  rewrite E. unfold ffs. rewrite ffs_from_power by (simpl; lia).
  replace (k + 1 - 1) with k by lia. simpl.
  repeat split. rewrite Z.shiftl_1_l. reflexivity.
Qed.

Lemma init_page_size_power_of_two_witness :
  w_sysconf_pagesize (world_ok 100 3) = 2 ^ 12 /\
  PAGE_SIZE (init_page_size (world_ok 100 3) initial_state) = 4096 /\
  PAGE_SHIFT (init_page_size (world_ok 100 3) initial_state) = 12.
Proof.
  split; [reflexivity|].
  destruct (init_page_size_power_of_two (world_ok 100 3) initial_state 12)
    as (H1 & H2 & _).
  - lia.
  - reflexivity.
  - split; [exact H1 | exact H2].
Defined.


Lemma skip_space_head (s : string) :
  match Scan.skip_space s with
  | String c _ => Scan.isspace c = false
  | EmptyString => True
  end.
Proof.
  induction s as [|c s IH]; simpl; [exact I|].
  destruct (Scan.isspace c) eqn:E; [exact IH | exact E].
Qed.

Lemma scan_word_bounds (width : nat) : forall s,
  no_space (fst (Scan.scan_word width s)) = true /\
  (String.length (fst (Scan.scan_word width s)) <= width)%nat.
Proof.
  induction width as [|width IH]; intros s; simpl.
  - destruct s; simpl; auto.
  - destruct s as [|c s]; simpl; [split; [reflexivity|lia]|].
    destruct (Scan.isspace c) eqn:E; simpl; [split; [reflexivity|lia]|].
    specialize (IH s). destruct (Scan.scan_word width s) as [word rest].
    simpl in *. rewrite E. simpl. destruct IH. split; [assumption|lia].
Qed.

Lemma scan_word_name_ok (width : nat) (s : string) :
  (0 < width <= 63)%nat ->
  Scan.skip_space s <> EmptyString ->
  name_ok (fst (Scan.scan_word width (Scan.skip_space s))).
Proof.
  intros Hw Hne. pose proof (skip_space_head s) as Hh.
  destruct (scan_word_bounds width (Scan.skip_space s)) as [Hns Hl].
  split; [|split; [exact Hns | lia]].
  destruct (Scan.skip_space s) as [|c t]; [contradiction|].
  destruct width as [|width]; [lia|]. simpl. rewrite Hh.
  destruct (Scan.scan_word width t). simpl. discriminate.
Qed.

Lemma to_uint32_fits (z : Z) : fits_uint (to_uint32 z).
Proof.
  unfold fits_uint, to_uint32. apply Z.mod_pos_bound. reflexivity.
Qed.

Lemma stop_result (b : bool) (done : list Scan.arg) :
  snd (Scan.stop b done) = done /\
  (fst (Scan.stop b done) = Z.of_nat (List.length done) \/
   fst (Scan.stop b done) = Scan.EOF).
Proof.
  unfold Scan.stop. destruct done; [destruct b|]; simpl; auto.
Qed.

(** The values [sscanf] stores are in range, they follow the conversions
    of the format in order, and the count it returns is their number unless
    it is [EOF]. *)
Lemma sscanf_from_result (fmt : list Scan.directive) :
  forall input done,
    widths_ok fmt ->
    Forall arg_ok done ->
    let r := Scan.sscanf_from fmt input done in
    Forall arg_ok (snd r) /\
    (exists k, map is_word (snd r)
               = map is_word done ++ firstn k (conversions fmt)) /\
    (fst r = Z.of_nat (List.length (snd r)) \/ fst r = Scan.EOF).
Proof.
  induction fmt as [|d fmt IH]; intros input done Hw Hd; cbv zeta.
  - simpl. split; [exact Hd|]. split; [|left; reflexivity].
    exists O. rewrite app_nil_r. reflexivity.
  - inversion Hw as [|? ? Hd1 Hw']; subst.
    assert (Hstop : forall b,
               Forall arg_ok (snd (Scan.stop b done)) /\
               (exists k, map is_word (snd (Scan.stop b done))
                          = map is_word done
                              ++ firstn k (conversions (d :: fmt))) /\
               (fst (Scan.stop b done)
                = Z.of_nat (List.length (snd (Scan.stop b done))) \/
                fst (Scan.stop b done) = Scan.EOF)).
    { intros b. destruct (stop_result b done) as [E1 E2]. rewrite E1.
      split; [exact Hd|]. split; [|exact E2].
      exists O. rewrite app_nil_r. reflexivity. }
    destruct d as [|w|c|]; cbn [Scan.sscanf_from].
    + destruct (Scan.scan_integer input) as [sv rest| |]; [|apply Hstop..].
      destruct (IH rest (done ++ [Scan.ArgU (to_uint32
                                               (Scan.strtoul_value sv))])
                  Hw') as (H1 & (k & H2) & H3).
      { apply Forall_app. split; [exact Hd|].
        constructor; [apply to_uint32_fits | constructor]. }
      split; [exact H1|]. split; [|exact H3].
      exists (S k). rewrite H2, map_app, <- app_assoc. reflexivity.
    + destruct (Scan.skip_space input) as [|c t] eqn:E; [apply Hstop|].
      pose proof (scan_word_name_ok w input Hd1) as Hn. rewrite E in Hn.
      destruct (Scan.scan_word w (String c t)) as [word rest].
      destruct (IH rest (done ++ [Scan.ArgS word]) Hw')
        as (H1 & (k & H2) & H3).
      { apply Forall_app. split; [exact Hd|].
        constructor; [apply Hn; discriminate | constructor]. }
      split; [exact H1|]. split; [|exact H3].
      exists (S k). rewrite H2, map_app, <- app_assoc. reflexivity.
    + destruct input as [|c' rest]; [apply Hstop|].
      destruct (Ascii.eqb c c'); [|apply Hstop].
      destruct (IH rest done Hw' Hd) as (H1 & (k & H2) & H3).
      split; [exact H1|]. split; [|exact H3]. exists k. exact H2.
    + destruct (IH (Scan.skip_space input) done Hw' Hd)
        as (H1 & (k & H2) & H3).
      split; [exact H1|]. split; [|exact H3]. exists k. exact H2.
Qed.

Lemma force_asic_format_widths : widths_ok force_asic_format.
Proof. unfold widths_ok, force_asic_format. repeat constructor. Qed.

Lemma arg_u_fits (args : list Scan.arg) (i : nat) :
  Forall arg_ok args -> fits_uint (Scan.arg_u args i).
Proof.
  intros H. unfold Scan.arg_u.
  destruct (nth_error args i) as [[v|t]|] eqn:E;
    try (unfold fits_uint, UINT_MOD; lia).
  apply nth_error_In in E. rewrite Forall_forall in H. exact (H _ E).
Qed.

Lemma arg_s_ok (args : list Scan.arg) (i : nat) (name : string) :
  Forall arg_ok args -> Scan.arg_s args i = Some name -> name_ok name.
Proof.
  intros H. unfold Scan.arg_s.
  destruct (nth_error args i) as [[v|t]|] eqn:E; try discriminate.
  intros [= <-]. apply nth_error_In in E. rewrite Forall_forall in H.
  exact (H _ E).
Qed.

(** When [sscanf] returns 6 for the format of the override, the fifth
    value it stored is the name. *)
Lemma sscanf_six_has_name (v : string) (args : list Scan.arg) :
  Scan.sscanf v force_asic_format = (6, args) ->
  exists name, Scan.arg_s args 4 = Some name.
Proof.
  intros E.
  destruct (sscanf_from_result force_asic_format v []
              force_asic_format_widths (Forall_nil _))
    as (_ & (k & Hk) & Hn).
  unfold Scan.sscanf in E. rewrite E in Hk, Hn. cbn [fst snd] in Hk, Hn.
  destruct Hn as [Hn|Hn]; [|discriminate Hn].
  assert (Hl : List.length args = 6%nat) by lia.
  destruct args as [|a0 [|a1 [|a2 [|a3 [|a4 [|a5 [|a6 args]]]]]]];
    try discriminate Hl.
  simpl in Hk. unfold conversions, force_asic_format in Hk.
  destruct k as [|[|[|[|[|[|k]]]]]]; try discriminate Hk.
  simpl in Hk. injection Hk as _ _ _ _ H4 _.
  destruct a4 as [n|name]; [discriminate H4|].
  exists name. reflexivity.
Qed.


(** ** What the configuration holds after loading *)

(** X9: An override that [init_vars_from_env] accepts is within the bounds of
    the table entry, whatever text it was scanned from: when the loading
    returns [HSAKMT_STATUS_SUCCESS] with HSA_FORCE_ASIC_TYPE set, the flag is
    1, every field of [force_asic_entry] is non-negative, major is at most
    63, minor and stepping at most 255, the dgpu flag 0 or 1 and the family
    below [CHIP_LAST], and the name has 1 to 63 characters, none of them
    white space. *)
Theorem accepted_override_within_bounds
        (h : Header) (w : World) (s : State) (v : string) :
  w_getenv w "HSA_FORCE_ASIC_TYPE" = Some v ->
  fst (init_vars_from_env h w s) = HSAKMT_STATUS_SUCCESS ->
  let s' := snd (init_vars_from_env h w s) in
  force_asic s' = 1 /\
  0 <= major (force_asic_entry s') <= 63 /\
  0 <= minor (force_asic_entry s') <= 255 /\
  0 <= stepping (force_asic_entry s') <= 255 /\
  0 <= is_dgpu (force_asic_entry s') <= 1 /\
  0 <= asic_family (force_asic_entry s') < CHIP_LAST h /\
  name_ok (force_asic_name s').
Proof.
  intros Hv. destruct (Scan.sscanf v force_asic_format) as [n args] eqn:Esc.
  pose proof (init_vars_from_env_override h w s v n args Hv Esc) as H.
  cbv zeta in H. destruct H as [Hname H].
  destruct (sscanf_from_result force_asic_format v []
              force_asic_format_widths (Forall_nil _)) as (Hok & _ & _).
  unfold Scan.sscanf in Esc. rewrite Esc in Hok. cbn [snd] in Hok.
  pose proof (arg_u_fits args 0 Hok) as F0.
  pose proof (arg_u_fits args 1 Hok) as F1.
  pose proof (arg_u_fits args 2 Hok) as F2.
  pose proof (arg_u_fits args 3 Hok) as F3.
  pose proof (arg_u_fits args 5 Hok) as F5.
  unfold fits_uint in *.
  destruct (Z.eqb_spec n 6) as [En|En]; cbn [negb orb] in H.
  2:{ destruct H as (Hr & _). intros Hs. rewrite Hr in Hs. discriminate Hs. }
  destruct (Z.ltb_spec 63 (Scan.arg_u args 0)); cbn [orb] in H.
  { destruct H as (Hr & _). intros Hs. rewrite Hr in Hs. discriminate Hs. }
  destruct (Z.ltb_spec 255 (Scan.arg_u args 1)); cbn [orb] in H.
  { destruct H as (Hr & _). intros Hs. rewrite Hr in Hs. discriminate Hs. }
  destruct (Z.ltb_spec 255 (Scan.arg_u args 2)); cbn [orb] in H.
  { destruct H as (Hr & _). intros Hs. rewrite Hr in Hs. discriminate Hs. }
  destruct (Z.ltb_spec 1 (Scan.arg_u args 3)); cbn [orb] in H.
  { destruct H as (Hr & _). intros Hs. rewrite Hr in Hs. discriminate Hs. }
  destruct (Z.leb_spec (CHIP_LAST h) (Scan.arg_u args 5)).
  { destruct H as (Hr & _). intros Hs. rewrite Hr in Hs. discriminate Hs. }
  destruct H as (_ & He & Hf). intros _. cbv zeta.
  rewrite He, Hf, Hname. simpl.
  subst n. destruct (sscanf_six_has_name v args Esc) as (name & En).
  rewrite En. pose proof (arg_s_ok args 4 name Hok En) as Hnm.
  split; [reflexivity|]. repeat (split; [lia|]). exact Hnm.
Qed.

Lemma accepted_override_within_bounds_witness :
  let w := world_force_asic "  7.255.0   0  x  19 trailing" in
  let s' := snd (init_vars_from_env example_header w initial_state) in
  fst (init_vars_from_env example_header w initial_state)
  = HSAKMT_STATUS_SUCCESS /\
  force_asic s' = 1 /\
  0 <= asic_family (force_asic_entry s') < CHIP_LAST example_header.
Proof.
  cbv zeta. split; [reflexivity|].
  destruct (accepted_override_within_bounds example_header
              (world_force_asic "  7.255.0   0  x  19 trailing")
              initial_state "  7.255.0   0  x  19 trailing")
    as (Hf & _ & _ & _ & _ & Hfam & _).
  - reflexivity.
  - reflexivity.
  - split; [exact Hf | exact Hfam].
Defined.

(** X10: Whatever HSA_FORCE_ASIC_TYPE holds and however the loading ends,
    [force_asic_name] afterwards is the name it held before or a word of 1
    to 63 characters without white space: [%63s] never stores more than 63
    characters. *)
Theorem stored_name_is_bounded (h : Header) (w : World) (s : State) :
  let s' := snd (init_vars_from_env h w s) in
  force_asic_name s' = force_asic_name s \/ name_ok (force_asic_name s').
Proof.
  cbv zeta.
  destruct (w_getenv w "HSA_FORCE_ASIC_TYPE") as [v|] eqn:Hv.
  - destruct (Scan.sscanf v force_asic_format) as [n args] eqn:Esc.
    pose proof (init_vars_from_env_override h w s v n args Hv Esc) as H.
    cbv zeta in H. destruct H as [Hname _]. rewrite Hname.
    destruct (sscanf_from_result force_asic_format v []
                force_asic_format_widths (Forall_nil _)) as (Hok & _ & _).
    unfold Scan.sscanf in Esc. rewrite Esc in Hok. cbn [snd] in Hok.
    destruct (Scan.arg_s args 4) as [name|] eqn:En; [|left; reflexivity].
    right. exact (arg_s_ok args 4 name Hok En).
  - left. unfold init_vars_from_env, getenv. rewrite Hv.
    destruct (w_getenv w "HSAKMT_DEBUG_LEVEL");
      destruct (w_getenv w "HSA_ZFB"); simpl;
      repeat match goal with |- context [if ?c then _ else _] => destruct c end;
      reflexivity.
Qed.

(** X11: The debug level after loading does not depend on what it was, nor on
    how the override fares: it is the number in HSAKMT_DEBUG_LEVEL when that
    lies between [HSAKMT_DEBUG_LEVEL_ERR] and [HSAKMT_DEBUG_LEVEL_DEBUG], and
    [HSAKMT_DEBUG_LEVEL_DEFAULT] when the variable is unset or out of that
    range. *)
Theorem debug_level_default_or_in_range
        (h : Header) (w : World) (s : State) :
  let level := hsakmt_debug_level (snd (init_vars_from_env h w s)) in
  level
  = match w_getenv w "HSAKMT_DEBUG_LEVEL" with
    | Some v =>
        if (HSAKMT_DEBUG_LEVEL_ERR h <=? Scan.atoi v)
           && (Scan.atoi v <=? HSAKMT_DEBUG_LEVEL_DEBUG h)
        then Scan.atoi v else HSAKMT_DEBUG_LEVEL_DEFAULT h
    | None => HSAKMT_DEBUG_LEVEL_DEFAULT h
    end /\
  (level = HSAKMT_DEBUG_LEVEL_DEFAULT h \/
   HSAKMT_DEBUG_LEVEL_ERR h <= level <= HSAKMT_DEBUG_LEVEL_DEBUG h).
Proof.
  cbv zeta.
  assert (E : hsakmt_debug_level (snd (init_vars_from_env h w s))
              = match w_getenv w "HSAKMT_DEBUG_LEVEL" with
                | Some v =>
                    if (HSAKMT_DEBUG_LEVEL_ERR h <=? Scan.atoi v)
                       && (Scan.atoi v <=? HSAKMT_DEBUG_LEVEL_DEBUG h)
                    then Scan.atoi v else HSAKMT_DEBUG_LEVEL_DEFAULT h
                | None => HSAKMT_DEBUG_LEVEL_DEFAULT h
                end).
  { unfold init_vars_from_env, getenv.
    destruct (w_getenv w "HSAKMT_DEBUG_LEVEL") as [d|];
      destruct (w_getenv w "HSA_ZFB");
      (destruct (w_getenv w "HSA_FORCE_ASIC_TYPE") as [v|];
       [destruct (Scan.sscanf v force_asic_format) as [n args];
        destruct (Scan.arg_s args 4);
        match goal with
        | |- context [if ?c then (HSAKMT_STATUS_ERROR, _) else _] => destruct c
        end|]);
      simpl;
      try (destruct ((HSAKMT_DEBUG_LEVEL_ERR h <=? Scan.atoi d)
                     && (Scan.atoi d <=? HSAKMT_DEBUG_LEVEL_DEBUG h)));
      reflexivity. }
  split; [exact E|]. rewrite E.
  destruct (w_getenv w "HSAKMT_DEBUG_LEVEL") as [d|]; [|left; reflexivity].
  destruct (Z.leb_spec (HSAKMT_DEBUG_LEVEL_ERR h) (Scan.atoi d));
    destruct (Z.leb_spec (Scan.atoi d) (HSAKMT_DEBUG_LEVEL_DEBUG h));
    simpl; auto.
Qed.

(** X12: With none of the three variables set the loading succeeds after its
    three [getenv] calls; it puts the debug level back to its default and
    leaves the zero-frame-buffer flag and the override of an earlier loading
    in place. *)
Theorem unset_environment_keeps_settings
        (h : Header) (w : World) (s : State) :
  w_getenv w "HSAKMT_DEBUG_LEVEL" = None ->
  w_getenv w "HSA_ZFB" = None ->
  w_getenv w "HSA_FORCE_ASIC_TYPE" = None ->
  let r := init_vars_from_env h w s in
  fst r = HSAKMT_STATUS_SUCCESS /\
  hsakmt_debug_level (snd r) = HSAKMT_DEBUG_LEVEL_DEFAULT h /\
  zfb_support (snd r) = zfb_support s /\
  force_asic (snd r) = force_asic s /\
  force_asic_entry (snd r) = force_asic_entry s /\
  force_asic_name (snd r) = force_asic_name s /\
  events_since s (snd r)
  = [EvGetenv "HSAKMT_DEBUG_LEVEL"; EvGetenv "HSA_ZFB";
     EvGetenv "HSA_FORCE_ASIC_TYPE"].
Proof.
  intros H1 H2 H3. unfold init_vars_from_env, getenv.
  rewrite H1, H2, H3. simpl. repeat split.
  apply events_since_app. simpl. norm_trace. reflexivity.
Qed.

Lemma unset_environment_keeps_settings_witness :
  let r := init_vars_from_env example_header (world_ok 100 3)
             configured_state in
  fst r = HSAKMT_STATUS_SUCCESS /\
  zfb_support (snd r) = 1 /\
  force_asic (snd r) = 1 /\
  force_asic_name (snd r) = "Navi10"%string.
Proof.
  cbv zeta.
  destruct (unset_environment_keeps_settings example_header (world_ok 100 3)
              configured_state eq_refl eq_refl eq_refl)
    as (Hr & _ & Hz & Hf & _ & Hn & _).
  split; [exact Hr|]. split; [exact Hz|]. split; [exact Hf | exact Hn].
Defined.



(** ** Text after the sixth field *)



(** ** The count between the first open and the last close *)

(** X14: After a first open that returns [HSAKMT_STATUS_SUCCESS] and [k] more
    opens in the same process, [kfd_open_count] is [k + 1]; after [j <= k]
    closes it is [k + 1 - j], the handle is the descriptor of the first open
    and nothing was closed. *)
Theorem count_is_opens_minus_closes
        (h : Header) (w : World) (ws : list World) (s : State) (j : nat) :
  kfd_open_count s = 0%N ->
  hsakmt_forked s = false ->
  parent_pid s = -1 \/ parent_pid s = w_getpid w ->
  Forall (fun w' => w_getpid w' = w_getpid w) ws ->
  fst (hsaKmtOpenKFD h w s) = HSAKMT_STATUS_SUCCESS ->
  (j <= List.length ws)%nat ->
  let s1 := snd (open_all h (w :: ws) s) in
  let s2 := snd (close_times j s1) in
  kfd_open_count s1 = N.of_nat (S (List.length ws)) /\
  kfd_open_count s2 = N.of_nat (S (List.length ws) - j) /\
  kfd_fd s2 = w_open w /\
  device_closes (trace s2) = device_closes (trace s) /\
  Forall (eq HSAKMT_STATUS_SUCCESS) (fst (close_times j s1)).
Proof.
  intros Hc Hf Hp Hpid Hs Hj.
  destruct (first_open_counts h w s Hc Hf Hp Hs) as (Hh & _ & Hc1).
  cbv zeta.
  change (open_all h (w :: ws) s)
    with (let (r, s1) := hsaKmtOpenKFD h w s in
          let (rs, s2) := open_all h ws s1 in (r :: rs, s2)).
  destruct (hsaKmtOpenKFD h w s) as [r s1]. cbn [fst snd] in *.
  assert (H1 : (0 < 1)%N) by lia.
  destruct (open_all_again h (w_getpid w) (w_open w) ws 1%N s1 H1 Hh Hpid)
    as (Hh2 & _ & _ & Hc2).
  destruct (open_all h ws s1) as [rs s2]. cbn [fst snd] in *.
  destruct Hh2 as (Hn2 & Hfd2 & _).
  assert (Hlt : (N.of_nat j < kfd_open_count s2)%N) by lia.
  destruct (close_times_partial j s2 Hlt) as (Hn3 & Hfd3 & Hrs3 & _ & Hc3).
  split; [lia|]. split; [lia|]. split; [congruence|].
  split; [congruence | exact Hrs3].
Qed.

Lemma count_is_opens_minus_closes_witness :
  let w := world_ok 100 3 in
  let s1 := snd (open_all example_header [w; w; w] initial_state) in
  kfd_open_count s1 = 3%N /\
  kfd_open_count (snd (close_times 2 s1)) = 1%N /\
  kfd_fd (snd (close_times 2 s1)) = 3.
Proof.
  cbv zeta.
  destruct (count_is_opens_minus_closes example_header (world_ok 100 3)
              [world_ok 100 3; world_ok 100 3] initial_state 2)
    as (H1 & H2 & H3 & _).
  - reflexivity.
  - reflexivity.
  - left; reflexivity.
  - repeat constructor.
  - reflexivity.
  - simpl; lia.
  - split; [exact H1|]. split; [exact H2 | exact H3].
Defined.

(** ** A reopen that fails *)

(** X15: The reset after a fork is not undone when the open that follows it
    fails before the device is open: the inherited descriptor was closed if
    it was not 0, the count, the handle, the flag and the recorded identity
    are 0, 0, false and -1, and the caller gets the error. *)
Theorem failed_reopen_stays_reset
        (h : Header) (w : World) (s : State) :
  fork_detected w s ->
  config_status h w <> HSAKMT_STATUS_SUCCESS \/ w_open w = -1 ->
  let r := hsaKmtOpenKFD h w s in
  fst r <> HSAKMT_STATUS_SUCCESS /\
  kfd_open_count (snd r) = 0%N /\
  kfd_fd (snd r) = 0 /\
  hsakmt_forked (snd r) = false /\
  parent_pid (snd r) = -1 /\
  filter is_device_close (events_since s (snd r))
  = (if kfd_fd s =? 0 then [] else [EvClose (kfd_fd s)]).
Proof.
  intros Hd Hfail.
  assert (Ha : acquired h w = false).
  { unfold acquired. destruct Hfail as [Hn|Ho].
    - apply status_neqb, negb_true_iff in Hn. rewrite Hn. reflexivity.
    - rewrite Ho. simpl. apply andb_false_r. }
  rewrite open_after_fork by exact Hd.
  destruct (reset_state_session s) as (Hn & Hfd & Hf & Hp & _ & _ & Htr).
  destruct (open_first_early h w (reset_state s) Ha)
    as (Hr & Hn1 & Hfd1 & _ & Hp1 & Hf1 & Htr1).
  cbv zeta.
  rewrite (events_since_app s _
             (reset_events s ++ config_events (config_status h w)
                ++ early_failure_events h w))
    by (rewrite Htr1, Htr; norm_trace; reflexivity).
  rewrite Hr, Hn1, Hfd1, Hp1, Hf1.
  split.
  { destruct (config_status_values h w) as [E|E]; rewrite E; simpl;
      discriminate. }
  split; [exact Hn|]. split; [exact Hfd|]. split; [exact Hf|].
  split; [exact Hp|].
  rewrite !filter_app.
  assert (E1 : filter is_device_close (config_events (config_status h w))
               = []).
  { unfold config_events. destruct (status_eqb _ _); reflexivity. }
  assert (E2 : filter is_device_close (early_failure_events h w) = []).
  { unfold early_failure_events. destruct (status_eqb _ _); reflexivity. }
  rewrite E1, E2, !app_nil_r. unfold reset_events.
  destruct (hsakmt_forked s); destruct (kfd_fd s =? 0); reflexivity.
Qed.

Lemma failed_reopen_stays_reset_witness :
  let r := hsaKmtOpenKFD example_header (world_ok 200 (-1)) two_references in
  fork_detected (world_ok 200 (-1)) two_references /\
  fst r = HSAKMT_STATUS_KERNEL_IO_CHANNEL_NOT_OPENED /\
  kfd_open_count (snd r) = 0%N /\
  filter is_device_close (events_since two_references (snd r)) = [EvClose 3].
Proof.
  cbv zeta.
  assert (Hd : fork_detected (world_ok 200 (-1)) two_references).
  { right. split; simpl; lia. }
  destruct (failed_reopen_stays_reset example_header (world_ok 200 (-1))
              two_references Hd (or_intror eq_refl))
    as (_ & Hn & _ & _ & _ & Hcl).
  split; [exact Hd|]. split; [reflexivity|]. split; [exact Hn | exact Hcl].
Defined.

